(** * Cracker Shop: cart, checkout and order persistence

    A shallow embedding of [app.py] (a Flask storefront) and the proofs of
    the properties stated about its cart and checkout flow.

    Modelling conventions.
    - Python [int] is unbounded: [Z].  The catalog of the model holds
      integer prices (whole rupees), so the amounts the handlers compute
      are [Z].  A Python [float] is an IEEE binary64 value
      ([SpecFloat.spec_float] at precision 53): it is what the [REAL]
      column of the [orders] table stores, and what [price * 100] is for a
      catalog price with a fraction.
    - Python [str] is [string]; one [ascii] stands for one code point
      below 256.
    - A Python [dict] keeps insertion order, and the order of the cart
      decides the order of the line items: a dict is an association list
      with unique keys, updated in place or extended at the end.
    - The session, the [orders] table and the calls to the outside world
      (SQLite, SMTP, Stripe) are threaded through a state-and-exception
      monad over [world]. *)

From Stdlib Require Import ZArith List String Ascii Bool Lia.
From Stdlib Require Import Decimal DecimalString DecimalZ.
From Stdlib Require Floats.SpecFloat.
Import ListNotations.

Local Open Scope Z_scope.
Local Open Scope list_scope.

Infix "+++" := String.append (right associativity, at level 60).

(* ------------------------------------------------------------------ *)
(** * Python built-ins used by the application *)

Module Py.

(** The exception classes that can escape a request handler. *)
Inductive exn :=
| ValueError
| IndexError
| OverflowError
| JSONDecodeError.

(** Result of running Python code: a value, or a raised exception. *)
Inductive outcome (A : Type) :=
| Ok (a : A)
| Raise (e : exn).
Arguments Ok {A} a.
Arguments Raise {A} e.

(** [str(n)] for an [int]; Python prints an [int] of up to
    [max_str_digits] digits and raises beyond, which is not modelled. *)
Definition str (n : Z) : string := NilZero.string_of_int (Z.to_int n).

(** Truthiness of [form.get(...)]: [None] and the empty string are falsy. *)
Definition truthy (v : option string) : bool :=
  match v with
  | None => false
  | Some EmptyString => false
  | Some _ => true
  end.

(** [f"{v}"] for a value that is a [str] or [None]. *)
Definition fmt (v : option string) : string :=
  match v with
  | None => "None"%string
  | Some s => s
  end.

(** Code points below 256 that [int()] strips around a numeral: the
    ASCII white space, NEL and the no-break space. *)
Definition is_space (c : ascii) : bool :=
  let n := Z.of_nat (nat_of_ascii c) in
  ((9 <=? n) && (n <=? 13)) || (n =? 32) || (n =? 133) || (n =? 160).

Fixpoint lstrip (s : string) : string :=
  match s with
  | EmptyString => EmptyString
  | String c r => if is_space c then lstrip r else s
  end.

Fixpoint rstrip (s : string) : string :=
  match s with
  | EmptyString => EmptyString
  | String c r =>
      match rstrip r with
      | EmptyString => if is_space c then EmptyString else String c EmptyString
      | r' => String c r'
      end
  end.

Definition strip (s : string) : string := rstrip (lstrip s).

Definition digit_of_ascii (c : ascii) : option (uint -> uint) :=
  match c with
  | "0" => Some D0 | "1" => Some D1 | "2" => Some D2 | "3" => Some D3
  | "4" => Some D4 | "5" => Some D5 | "6" => Some D6 | "7" => Some D7
  | "8" => Some D8 | "9" => Some D9
  | _ => None
  end%char.

(** The digits of a decimal literal: at least one digit, and single
    underscores allowed between digits only. [prev] tells whether the
    previous character was a digit. *)
Fixpoint digits (prev : bool) (s : string) : option uint :=
  match s with
  | EmptyString => if prev then Some Nil else None
  | String c r =>
      match digit_of_ascii c with
      | Some D => option_map D (digits true r)
      | None =>
          if (Ascii.eqb c "_" && prev)%bool then digits false r else None
      end
  end.

(** [sys.get_int_max_str_digits()]: the default limit on the number of
    digits of a decimal numeral that [int()] converts. *)
Definition max_str_digits : nat := 4300.

(** A numeral within the limit.  The limit counts the digit characters,
    leading zeros included; the sign, the white space and the underscores
    do not count. *)
Definition numeral (s : string) : option uint :=
  match digits false s with
  | Some d => if Nat.leb (nb_digits d) max_str_digits then Some d else None
  | None => None
  end.

(** [int(s)] for a [str]: [None] stands for [ValueError]. *)
Definition int_of_str (s : string) : option Z :=
  match strip s with
  | String "-" r => option_map (fun d => Z.of_int (Neg d)) (numeral r)
  | String "+" r => option_map (fun d => Z.of_int (Pos d)) (numeral r)
  | t => option_map (fun d => Z.of_int (Pos d)) (numeral t)
  end.

(** A value handed to [int()]: the route converter gives an [int], a
    cart key or a form field is a [str]. *)
Inductive value :=
| VInt (n : Z)
| VStr (s : string).

Definition int (v : value) : option Z :=
  match v with
  | VInt n => Some n
  | VStr s => int_of_str s
  end.

(** ** Floats

    A [float] is a binary64 value.  Arithmetic rounds to nearest, ties to
    even. *)

Definition float := SpecFloat.spec_float.

Definition prec : Z := 53.
Definition emax : Z := 1024.

(** The binary64 value nearest to the integer [n]; an infinity when [n]
    is beyond the range. *)
Definition nearest (n : Z) : float :=
  SpecFloat.binary_normalize prec emax n 0 false.

(** [float(n)] for an [int]. *)
Definition float_of_int (n : Z) : outcome float :=
  match nearest n with
  | SpecFloat.S754_infinity _ => Raise OverflowError
  | x => Ok x
  end.

(** The float that a decimal literal [m / 10^k] denotes (such as [19.99],
    which is [1999 / 10^2]), for [m] and [10^k] below [2^53]: the
    correctly rounded quotient. *)
Definition decimal (m : Z) (k : Z) : float :=
  SpecFloat.SFdiv prec emax (nearest m) (nearest (10 ^ k)).

(** [int(x)] for a [float]: truncation towards zero. *)
Definition int_of_float (x : float) : outcome Z :=
  match x with
  | SpecFloat.S754_zero _ => Ok 0
  | SpecFloat.S754_finite s m e =>
      let a := if 0 <=? e then Z.shiftl (Zpos m) e
               else Z.shiftr (Zpos m) (- e) in
      Ok (if s then - a else a)
  | SpecFloat.S754_infinity _ => Raise OverflowError
  | SpecFloat.S754_nan => Raise ValueError
  end.

(** A Python number: what a JSON number of the catalog is loaded as. *)
Inductive number :=
| NInt (n : Z)
| NFloat (x : float).

(** [a * b]: exact on two [int]s; with a [float] operand the [int] is
    converted first and the product is rounded. *)
Definition mul (a b : number) : outcome number :=
  match a, b with
  | NInt m, NInt n => Ok (NInt (m * n))
  | NInt m, NFloat y =>
      match float_of_int m with
      | Ok x => Ok (NFloat (SpecFloat.SFmul prec emax x y))
      | Raise e => Raise e
      end
  | NFloat x, NInt n =>
      match float_of_int n with
      | Ok y => Ok (NFloat (SpecFloat.SFmul prec emax x y))
      | Raise e => Raise e
      end
  | NFloat x, NFloat y => Ok (NFloat (SpecFloat.SFmul prec emax x y))
  end.

(** [int(a)] for a number. *)
Definition int_of_number (a : number) : outcome Z :=
  match a with
  | NInt n => Ok n
  | NFloat x => int_of_float x
  end.

(** [s.startswith(p)] *)
Definition startswith (s p : string) : bool := String.prefix p s.

(** [s.split(sep, 1)] for a one-character separator. *)
Fixpoint split1 (sep : ascii) (s : string) : list string :=
  match s with
  | EmptyString => [EmptyString]
  | String c r =>
      if Ascii.eqb c sep then [EmptyString; r]
      else match split1 sep r with
           | h :: t => String c h :: t
           | [] => [String c EmptyString]
           end
  end.

(** [sep.join(l)] *)
Fixpoint join (sep : string) (l : list string) : string :=
  match l with
  | [] => EmptyString
  | [x] => x
  | x :: r => x +++ sep +++ join sep r
  end.

(** [needle in hay] *)
Fixpoint contains (needle hay : string) : bool :=
  String.prefix needle hay
  || match hay with
     | EmptyString => false
     | String _ r => contains needle r
     end.

(** ** Insertion-ordered dictionaries with [str] keys *)

Definition dict (V : Type) := list (string * V).

Fixpoint dict_get {V} (d : dict V) (k : string) : option V :=
  match d with
  | [] => None
  | (k', v) :: r => if String.eqb k' k then Some v else dict_get r k
  end.

(** [d.get(k, default)] *)
Definition dict_get_default {V} (d : dict V) (k : string) (dflt : V) : V :=
  match dict_get d k with
  | Some v => v
  | None => dflt
  end.

(** [d[k] = v]: an existing key keeps its place, a new key goes last. *)
Fixpoint dict_set {V} (d : dict V) (k : string) (v : V) : dict V :=
  match d with
  | [] => [(k, v)]
  | (k', v') :: r =>
      if String.eqb k' k then (k', v) :: r else (k', v') :: dict_set r k v
  end.

Definition dict_keys {V} (d : dict V) : list string := map fst d.

End Py.

Import Py.

(* ------------------------------------------------------------------ *)
(** * The [json] module, as far as the application uses it

    [json.dumps] with its default settings ([ensure_ascii], separators
    [", "] and [": "]) and [json.loads].  Floats are not modelled: a
    text with a float literal is not decoded. *)

Module Json.

#[warnings="-register-all"]
Inductive value :=
| Null
| Bool (b : bool)
| Int (n : Z)
| Str (s : string)
| List (l : list value)
| Dict (d : list (string * value)).

Definition chr (c : ascii) : string := String c EmptyString.
Definition dquote : ascii := ascii_of_nat 34.
Definition backslash : ascii := ascii_of_nat 92.
Definition quote : string := chr dquote.

(** ** Encoding *)

Definition hex_digit (n : nat) : ascii :=
  match n with
  | 0 => "0" | 1 => "1" | 2 => "2" | 3 => "3" | 4 => "4" | 5 => "5"
  | 6 => "6" | 7 => "7" | 8 => "8" | 9 => "9" | 10 => "a" | 11 => "b"
  | 12 => "c" | 13 => "d" | 14 => "e" | _ => "f"
  end%nat%char.

(** One character of a string literal: the short escapes, printable
    ASCII as it is, anything else as [\u00XX]. *)
Definition escape_char (c : ascii) : string :=
  let n := nat_of_ascii c in
  if Ascii.eqb c dquote then String backslash quote
  else if Ascii.eqb c backslash then String backslash (chr backslash)
  else if Nat.eqb n 10 then String backslash "n"
  else if Nat.eqb n 13 then String backslash "r"
  else if Nat.eqb n 9 then String backslash "t"
  else if Nat.eqb n 8 then String backslash "b"
  else if Nat.eqb n 12 then String backslash "f"
  else if (Nat.leb 32 n && Nat.leb n 126)%bool then chr c
  else String backslash
         (String "u" (String "0" (String "0"
            (String (hex_digit (Nat.div n 16))
               (chr (hex_digit (Nat.modulo n 16))))))).

Fixpoint escape (s : string) : string :=
  match s with
  | EmptyString => EmptyString
  | String c r => escape_char c +++ escape r
  end.

Definition dumps_str (s : string) : string := quote +++ escape s +++ quote.

Fixpoint dumps (v : value) : string :=
  match v with
  | Null => "null"
  | Bool true => "true"
  | Bool false => "false"
  | Int n => Py.str n
  | Str s => dumps_str s
  | List l => "[" +++ Py.join ", " (map dumps l) +++ "]"
  | Dict d =>
      "{" +++ Py.join ", "
                (map (fun kv => dumps_str (fst kv) +++ ": " +++ dumps (snd kv)) d)
          +++ "}"
  end%string.

(** ** Decoding *)

Definition is_ws (c : ascii) : bool :=
  let n := nat_of_ascii c in
  (Nat.eqb n 32 || Nat.eqb n 9 || Nat.eqb n 10 || Nat.eqb n 13)%bool.

Fixpoint skip_ws (s : string) : string :=
  match s with
  | EmptyString => EmptyString
  | String c r => if is_ws c then skip_ws r else s
  end.

Definition hex_val (c : ascii) : option nat :=
  let n := nat_of_ascii c in
  if (Nat.leb 48 n && Nat.leb n 57)%bool then Some (n - 48)%nat
  else if (Nat.leb 97 n && Nat.leb n 102)%bool then Some (n - 87)%nat
  else if (Nat.leb 65 n && Nat.leb n 70)%bool then Some (n - 55)%nat
  else None.

(** The character a one-letter escape stands for. *)
Definition unescape (e : ascii) : option ascii :=
  if Ascii.eqb e dquote then Some dquote
  else if Ascii.eqb e backslash then Some backslash
  else match e with
       | "/" => Some "/"
       | "b" => Some (ascii_of_nat 8)
       | "f" => Some (ascii_of_nat 12)
       | "n" => Some (ascii_of_nat 10)
       | "r" => Some (ascii_of_nat 13)
       | "t" => Some (ascii_of_nat 9)
       | _ => None
       end%char.

Definition cons_fst (c : ascii) (x : option (string * string)) :=
  option_map (fun p => (String c (fst p), snd p)) x.

(** The body of a string literal, after the opening quote, up to and
    including the closing quote (strict mode: raw control characters
    are refused).  A [\uXXXX] escape of a code point above 255 is not
    decoded. *)
Fixpoint scanstring (s : string) : option (string * string) :=
  match s with
  | EmptyString => None
  | String c r =>
      if Ascii.eqb c dquote then Some (EmptyString, r)
      else if Ascii.eqb c backslash then
        match r with
        | EmptyString => None
        | String e r1 =>
            if Ascii.eqb e "u" then
              match r1 with
              | String h1 (String h2 (String h3 (String h4 r2))) =>
                  match hex_val h1, hex_val h2, hex_val h3, hex_val h4 with
                  | Some 0%nat, Some 0%nat, Some a, Some b =>
                      cons_fst (ascii_of_nat (16 * a + b)) (scanstring r2)
                  | _, _, _, _ => None
                  end
              | _ => None
              end
            else
              match unescape e with
              | Some ch => cons_fst ch (scanstring r1)
              | None => None
              end
        end
      else if Nat.ltb (nat_of_ascii c) 32 then None
      else cons_fst c (scanstring r)
  end.

Fixpoint read_digits (s : string) : uint * string :=
  match s with
  | EmptyString => (Nil, EmptyString)
  | String c r =>
      match Py.digit_of_ascii c with
      | Some D => let dr := read_digits r in (D (fst dr), snd dr)
      | None => (Nil, s)
      end
  end.

Definition starts_float_tail (s : string) : bool :=
  match s with
  | String c _ => (Ascii.eqb c "." || Ascii.eqb c "e" || Ascii.eqb c "E")%bool
  | EmptyString => false
  end.

(** An integer literal: an optional minus sign, then a single zero or a
    nonzero digit followed by digits; a fraction or an exponent after it
    would make a float. *)
Definition scan_number (s : string) : option (Z * string) :=
  let '(neg, t) := match s with
                   | String "-" r => (true, r)
                   | _ => (false, s)
                   end in
  let '(d, rest) := read_digits t in
  match d with
  | Nil => None
  | D0 (D0 _ | D1 _ | D2 _ | D3 _ | D4 _ | D5 _ | D6 _ | D7 _ | D8 _ | D9 _) => None
  | _ =>
      if starts_float_tail rest then None
      else Some (Z.of_int (if neg then Neg d else Pos d), rest)
  end.

Definition drop (n : nat) (s : string) : string :=
  String.substring n (String.length s - n) s.

Fixpoint scan_value (fuel : nat) (s : string) {struct fuel}
  : option (value * string) :=
  match fuel with
  | O => None
  | S n =>
      match s with
      | EmptyString => None
      | String c r =>
          if Ascii.eqb c dquote then
            option_map (fun p => (Str (fst p), snd p)) (scanstring r)
          else if Ascii.eqb c "[" then
            match skip_ws r with
            | String "]" r1 => Some (List [], r1)
            | r1 => scan_array n r1 []
            end
          else if Ascii.eqb c "{" then
            match skip_ws r with
            | String "}" r1 => Some (Dict [], r1)
            | r1 => scan_members n r1 []
            end
          else if String.prefix "null" s then Some (Null, drop 4 s)
          else if String.prefix "true" s then Some (Bool true, drop 4 s)
          else if String.prefix "false" s then Some (Bool false, drop 5 s)
          else option_map (fun p => (Int (fst p), snd p)) (scan_number s)
      end
  end

with scan_array (fuel : nat) (s : string) (acc : list value) {struct fuel}
  : option (value * string) :=
  match fuel with
  | O => None
  | S n =>
      match scan_value n s with
      | None => None
      | Some (v, r) =>
          match skip_ws r with
          | String "," r1 => scan_array n (skip_ws r1) (acc ++ [v])
          | String "]" r1 => Some (List (acc ++ [v]), r1)
          | _ => None
          end
      end
  end

with scan_members (fuel : nat) (s : string) (acc : Py.dict value) {struct fuel}
  : option (value * string) :=
  match fuel with
  | O => None
  | S n =>
      match s with
      | EmptyString => None
      | String c r =>
          if Ascii.eqb c dquote then
            match scanstring r with
            | None => None
            | Some (k, r1) =>
                match skip_ws r1 with
                | String ":" r2 =>
                    match scan_value n (skip_ws r2) with
                    | None => None
                    | Some (v, r3) =>
                        match skip_ws r3 with
                        | String "," r4 =>
                            scan_members n (skip_ws r4) (Py.dict_set acc k v)
                        | String "}" r4 =>
                            Some (Dict (Py.dict_set acc k v), r4)
                        | _ => None
                        end
                    end
                | _ => None
                end
            end
          else None
      end
  end.

(** [json.loads(s)]: one value, with nothing but white space around it.
    Every call consumes a character, so the length of the text bounds
    the recursion. [None] stands for [JSONDecodeError]. *)
Definition loads (s : string) : option value :=
  match scan_value (S (String.length s)) (skip_ws s) with
  | Some (v, r) =>
      match skip_ws r with
      | EmptyString => Some v
      | _ => None
      end
  | None => None
  end.

(** ** Notions for the round trip *)

(** What may follow a number in a JSON text: a separator or a closing
    bracket, never a digit or the start of a fraction or an exponent. *)
Definition closes (rest : string) : Prop :=
  exists c r, rest = String c r
              /\ (c = "," \/ c = "]" \/ c = "}")%char.

(** A numeral without a leading zero, the way [str] prints. *)
Definition canonical (d : uint) : Prop :=
  d <> Nil /\ forall d', d = D0 d' -> d' = Nil.

(** Values without nesting. *)
Definition simple (v : value) : Prop :=
  match v with
  | Int _ | Str _ => True
  | _ => False
  end.

(** The text of one member of an object. *)
Definition member (kv : string * value) : string :=
  dumps_str (fst kv) +++ ": " +++ dumps (snd kv).

End Json.

(* ------------------------------------------------------------------ *)
(** * Data model *)

(** A catalog entry of [products.json]; the display fields play no part
    in the cart or the checkout.  The price of an entry is an [int]; what
    [int(price * 100)] does to a price with a fraction is stated on
    [number]s, with [unit_amount]. *)
Record product := {
  p_id : Z;
  p_name : string;
  p_price : Z
}.

(** [session["cart"]]: product id ([str]) to quantity. *)
Definition cart_t := dict Z.

(** An item of the cart page: the copied product with [qty] and
    [subtotal] added. *)
Record cart_item := {
  ci_product : product;
  ci_qty : Z;
  ci_subtotal : Z
}.

(** An item of the checkout: the dict with the keys [id], [name],
    [price] and [qty]. *)
Record line_item := {
  li_id : Z;
  li_name : string;
  li_price : Z;
  li_qty : Z
}.

(** The Python value of a checkout item, as [json.dumps] sees it. *)
Definition item_value (it : line_item) : Json.value :=
  Json.Dict [("id", Json.Int (li_id it)); ("name", Json.Str (li_name it));
             ("price", Json.Int (li_price it)); ("qty", Json.Int (li_qty it))]%string.

Definition items_value (items : list line_item) : Json.value :=
  Json.List (map item_value items).

(** A row of the [orders] table; a [None] field is [NULL].  The column
    [total] is declared [REAL]: [r_total] is the exact value of the
    binary64 number it holds. *)
Record order_row := {
  r_id : Z;
  r_customer_name : option string;
  r_email : option string;
  r_phone : option string;
  r_address : option string;
  r_delivery_type : option string;
  r_items : string;
  r_total : Z;
  r_paid : Z
}.

(** An order as the admin page receives it; [o_total] is the value of
    the [float] read from the [total] column. *)
Record order := {
  o_id : Z;
  o_customer_name : option string;
  o_email : option string;
  o_phone : option string;
  o_address : option string;
  o_delivery_type : option string;
  o_items : Json.value;
  o_total : Z;
  o_paid : Z
}.

Record email_message := {
  m_subject : string;
  m_from : string;
  m_to : string;
  m_body : string
}.

(** One entry of [line_items] in the Stripe request. *)
Record stripe_line := {
  sl_currency : string;
  sl_product_name : string;
  sl_unit_amount : Z;
  sl_quantity : Z
}.

(** The arguments of [stripe.checkout.Session.create]. *)
Record stripe_request := {
  sr_payment_method_types : list string;
  sr_line_items : list stripe_line;
  sr_mode : string;
  sr_success_url : string;
  sr_cancel_url : string
}.

Inductive stripe_result :=
| StripeSession (url : string)
| StripeError (msg : string).

(** What a request does past the session, in order. *)
Inductive event :=
| EvInsert (row : order_row)
| EvCartPopped
| EvEmail (msg : email_message) (sent : bool)
| EvStripe (rq : stripe_request) (res : stripe_result).

(** The state a request runs in: the visitor's session ([cart] and the
    flashed messages), the [orders] table with the counter behind
    [AUTOINCREMENT], and the log of effects. *)
Record world := {
  session_cart : option cart_t;
  session_flashes : list (string * string);
  orders : list order_row;
  orders_seq : Z;
  trace : list event
}.

(** Module-level settings: the catalog, the environment variables and
    the external root of the site ([url_for(..., _external=True)]). *)
Record config := {
  PRODUCTS : list product;
  STRIPE_SECRET : string;
  EMAIL_USER : option string;
  EMAIL_PASS : option string;
  ADMIN_PASSWORD : option string;
  url_root : string
}.

(** How the outside world answers during one request: [sqlite_error] is
    the text of the [sqlite3.Error] its database block raises, if it
    does; [smtp_sends] tells whether the SMTP exchange goes through
    without an exception; [stripe_create] is the provider's answer. *)
Record services := {
  sqlite_error : option string;
  smtp_sends : email_message -> bool;
  stripe_create : stripe_request -> stripe_result
}.

(** [request.form]: the fields in the order they were sent. *)
Definition form_t := list (string * string).

(** [form.get(k)]: the first value of the field. *)
Definition form_get (data : form_t) (k : string) : option string := dict_get data k.

(** [for key in data]: each field name once, in order of appearance. *)
Definition form_keys (data : form_t) : list string :=
  fold_left (fun acc k => if existsb (String.eqb k) acc then acc else acc ++ [k])
            (map fst data) [].

Inductive page :=
| IndexPage (products : list product)
| CartPage (items : list cart_item) (total : Z)
| CheckoutPage (items : list line_item) (total : Z)
| SuccessPage (order_id : option string)
| AdminPage (orders : option (list order)) (denied : bool).

Inductive response :=
| Redirect (location : string) (code : Z)
| Render (pg : page).

Inductive request :=
| GetIndex
| GetAddToCart (pid : Z)
| GetCart
| PostUpdateCart (data : form_t)
| GetCheckout
| PostCheckout (data : form_t)
| GetSuccess (order_id : option string)
| GetAdmin (p : option string).

(* ------------------------------------------------------------------ *)
(** * The request monad *)

Definition M (A : Type) : Type := world -> outcome A * world.

Definition ret {A} (a : A) : M A := fun w => (Ok a, w).

Definition bind {A B} (m : M A) (k : A -> M B) : M B :=
  fun w =>
    match m w with
    | (Ok a, w') => k a w'
    | (Raise e, w') => (Raise e, w')
    end.

Definition lift {A} (o : outcome A) : M A := fun w => (o, w).

Declare Scope shop_scope.
Delimit Scope shop_scope with shop.
Notation "x <- m ;; k" := (bind m (fun x => k))
  (at level 61, m at next level, right associativity) : shop_scope.
Notation "m ;; k" := (bind m (fun _ => k))
  (at level 61, right associativity) : shop_scope.
Local Open Scope shop_scope.

Definition set_cart (c : option cart_t) (w : world) : world :=
  {| session_cart := c; session_flashes := session_flashes w;
     orders := orders w; orders_seq := orders_seq w; trace := trace w |}.

Definition add_flash (f : string * string) (w : world) : world :=
  {| session_cart := session_cart w;
     session_flashes := session_flashes w ++ [f];
     orders := orders w; orders_seq := orders_seq w; trace := trace w |}.

Definition log (e : event) (w : world) : world :=
  {| session_cart := session_cart w; session_flashes := session_flashes w;
     orders := orders w; orders_seq := orders_seq w;
     trace := trace w ++ [e] |}.

Definition add_row (r : order_row) (w : world) : world :=
  {| session_cart := session_cart w; session_flashes := session_flashes w;
     orders := orders w ++ [r]; orders_seq := r_id r; trace := trace w |}.

(** [session.get("cart", {})] *)
Definition session_get_cart : M cart_t :=
  fun w => (Ok (match session_cart w with Some c => c | None => [] end), w).

(** [session["cart"] = cart] *)
Definition session_set_cart (c : cart_t) : M unit :=
  fun w => (Ok tt, set_cart (Some c) w).

(** [session.pop("cart", None)] *)
Definition session_pop_cart : M unit :=
  fun w => (Ok tt, log EvCartPopped (set_cart None w)).

(** [flash(message, category)] *)
Definition flash (message category : string) : M unit :=
  fun w => (Ok tt, add_flash (message, category) w).

(** [url_for] on the routes of the application. *)
Definition url_index : string := "/".
Definition url_cart : string := "/cart".
Definition url_checkout : string := "/checkout".
Definition url_success : string := "/success".
Definition url_success_for (order_id : Z) : string :=
  url_success +++ "?order_id=" +++ str order_id.

(** [redirect(location)] with Flask's default status. *)
Definition redirect (location : string) : response := Redirect location 302.

(* ------------------------------------------------------------------ *)
(** * The application *)

(** Outcome of a [try: ... except sqlite3.Error as e] block. *)
Inductive db_result (A : Type) :=
| DbOk (a : A)
| DbError (e : string).
Arguments DbOk {A} a.
Arguments DbError {A} e.

Definition nl : string := String (ascii_of_nat 10) EmptyString.

(** ** SQLite values

    The [sqlite3] module binds a Python [int] as a signed 64-bit integer
    and raises [OverflowError] (which is not an [sqlite3.Error]) for an
    [int] outside that range. *)
Definition fits_int64 (n : Z) : bool :=
  (- 2 ^ 63 <=? n) && (n <? 2 ^ 63).

(** An integer stored in a [REAL] column is converted to the nearest
    binary64 number, ties to even, and read back as a [float];
    [real_of_int n] is the exact value of that number.  Every 64-bit
    integer is within the range of binary64. *)
Definition real_of_int (n : Z) : Z :=
  match int_of_float (nearest n) with
  | Ok v => v
  | Raise _ => 0
  end.

Section App.

Variable cfg : config.
Variable svc : services.

(** ** Utility functions *)

(** [get_product]: [int(pid)] is evaluated once per product visited, so
    it is not evaluated at all on an empty catalog. *)
Fixpoint get_product_in (products : list product) (pid : value)
  : outcome (option product) :=
  match products with
  | [] => Ok None
  | p :: rest =>
      match int pid with
      | None => Raise ValueError
      | Some n => if p_id p =? n then Ok (Some p) else get_product_in rest pid
      end
  end.

Definition get_product (pid : value) : outcome (option product) :=
  get_product_in (PRODUCTS cfg) pid.

(** ** [/] *)
Definition index : M response := ret (Render (IndexPage (PRODUCTS cfg))).

(** ** [/add-to-cart/<int:pid>] *)
Definition add_to_cart (pid : Z) : M response :=
  prod <- lift (get_product (VInt pid)) ;;
  match prod with
  | None =>
      flash "Product not found" "error" ;;
      ret (redirect url_index)
  | Some prod =>
      cart <- session_get_cart ;;
      let cart := dict_set cart (str pid) (dict_get_default cart (str pid) 0 + 1) in
      session_set_cart cart ;;
      flash ("Added " +++ p_name prod +++ " to cart") "success" ;;
      ret (redirect url_index)
  end.

(** ** [/cart] *)
Fixpoint cart_loop (entries : list (string * Z)) (items : list cart_item)
  (total : Z) : outcome (list cart_item * Z) :=
  match entries with
  | [] => Ok (items, total)
  | (pid, qty) :: rest =>
      match get_product (VStr pid) with
      | Raise e => Raise e
      | Ok None => cart_loop rest items total
      | Ok (Some p) =>
          let p_copy := {| ci_product := p; ci_qty := qty;
                           ci_subtotal := p_price p * qty |} in
          cart_loop rest (items ++ [p_copy]) (total + ci_subtotal p_copy)
      end
  end.

Definition cart : M response :=
  cart <- session_get_cart ;;
  it <- lift (cart_loop cart [] 0) ;;
  ret (Render (CartPage (fst it) (snd it))).

(** ** [/update-cart] *)
Fixpoint update_cart_loop (data : form_t) (keys : list string) (cart : cart_t)
  : outcome cart_t :=
  match keys with
  | [] => Ok cart
  | key :: rest =>
      if startswith key "qty-" then
        match split1 "-" key with
        | _ :: pid :: _ =>
            let qty := match form_get data key with
                       | Some v => match int (VStr v) with
                                   | Some q => q
                                   | None => 0
                                   end
                       | None => 0
                       end in
            if qty >? 0 then update_cart_loop data rest (dict_set cart pid qty)
            else update_cart_loop data rest cart
        | _ => Raise IndexError
        end
      else update_cart_loop data rest cart
  end.

Definition update_cart (data : form_t) : M response :=
  cart <- lift (update_cart_loop data (form_keys data) []) ;;
  session_set_cart cart ;;
  ret (redirect url_cart).

(** ** Email sending *)
Fixpoint email_item_lines (items : list line_item) : string :=
  match items with
  | [] => EmptyString
  | it :: rest =>
      ("- " +++ li_name it +++ " x" +++ str (li_qty it) +++ " @ "
       +++ str (li_price it) +++ nl) +++ email_item_lines rest
  end.

Definition order_email (to_email customer_name : option string) (order_id : Z)
  (items : list line_item) (total : Z) (delivery_type : option string)
  : email_message :=
  {| m_subject := "Order Confirmation #" +++ str order_id +++ " - Cracker Shop";
     m_from := fmt (EMAIL_USER cfg);
     m_to := fmt to_email;
     m_body := "Hello " +++ fmt customer_name +++ "," +++ nl +++ nl
               +++ "Thank you for your order." +++ nl
               +++ "Order ID: " +++ str order_id +++ nl
               +++ "Delivery: " +++ fmt delivery_type +++ nl
               +++ "Total: " +++ str total +++ nl +++ nl
               +++ "Items:" +++ nl
               +++ email_item_lines items
               +++ nl +++ "We will contact you soon." +++ nl +++ nl
               +++ "Regards," +++ nl +++ "Cracker Shop" |}.

Definition send_order_email (to_email customer_name : option string)
  (order_id : Z) (items : list line_item) (total : Z)
  (delivery_type : option string) : M bool :=
  if (negb (truthy (EMAIL_USER cfg)) || negb (truthy (EMAIL_PASS cfg))
      || negb (truthy to_email))%bool
  then ret false
  else
    let msg := order_email to_email customer_name order_id items total
                 delivery_type in
    fun w => let sent := smtp_sends svc msg in
             (Ok sent, log (EvEmail msg sent) w).

(** ** [/checkout] *)
Fixpoint checkout_loop (entries : list (string * Z)) (items : list line_item)
  (total : Z) : outcome (list line_item * Z) :=
  match entries with
  | [] => Ok (items, total)
  | (pid, qty) :: rest =>
      match get_product (VStr pid) with
      | Raise e => Raise e
      | Ok None => checkout_loop rest items total
      | Ok (Some p) =>
          checkout_loop rest
            (items ++ [{| li_id := p_id p; li_name := p_name p;
                          li_price := p_price p; li_qty := qty |}])
            (total + p_price p * qty)
      end
  end.

(** The [INSERT] block: connect, insert, read [lastrowid], commit.
    When the block raises an [sqlite3.Error], the handler catches it.
    Otherwise the parameters are bound: a [total] outside the 64-bit
    range raises [OverflowError], which nothing catches, before anything
    is written; a [total] within it is stored as a [REAL]. *)
Definition insert_order (name email phone address delivery_type : option string)
  (items : string) (total paid : Z) : M (db_result Z) :=
  fun w =>
    match sqlite_error svc with
    | Some e => (Ok (DbError e), w)
    | None =>
        if fits_int64 total then
          let row := {| r_id := orders_seq w + 1; r_customer_name := name;
                        r_email := email; r_phone := phone;
                        r_address := address; r_delivery_type := delivery_type;
                        r_items := items; r_total := real_of_int total;
                        r_paid := paid |} in
          (Ok (DbOk (r_id row)), log (EvInsert row) (add_row row w))
        else (Raise OverflowError, w)
    end.

(** [int(it["price"] * 100)] *)
Definition unit_amount (price : number) : outcome Z :=
  match mul price (NInt 100) with
  | Ok x => int_of_number x
  | Raise e => Raise e
  end.

(** The list comprehension that builds [line_items]; the prices of this
    catalog are [int]s. *)
Fixpoint stripe_lines (items : list line_item) : outcome (list stripe_line) :=
  match items with
  | [] => Ok []
  | it :: rest =>
      match unit_amount (NInt (li_price it)) with
      | Raise e => Raise e
      | Ok amount =>
          match stripe_lines rest with
          | Raise e => Raise e
          | Ok lines =>
              Ok ({| sl_currency := "inr";
                     sl_product_name := li_name it;
                     sl_unit_amount := amount;
                     sl_quantity := li_qty it |} :: lines)
          end
      end
  end.

Definition stripe_params (line_items : list stripe_line) (order_id : Z)
  : stripe_request :=
  {| sr_payment_method_types := ["card"%string];
     sr_line_items := line_items;
     sr_mode := "payment";
     sr_success_url := (url_root cfg +++ url_success)
                       +++ "?order_id=" +++ str order_id;
     sr_cancel_url := url_root cfg +++ url_checkout |}.

(** The entry of an item whose price is an [int], where the conversion
    changes nothing, and the request made of such entries. *)
Definition stripe_line_of (it : line_item) : stripe_line :=
  {| sl_currency := "inr";
     sl_product_name := li_name it;
     sl_unit_amount := li_price it * 100;
     sl_quantity := li_qty it |}.

Definition stripe_request_of (items : list line_item) (order_id : Z)
  : stripe_request :=
  stripe_params (map stripe_line_of items) order_id.

Definition stripe_session_create (rq : stripe_request) : M stripe_result :=
  fun w => let res := stripe_create svc rq in (Ok res, log (EvStripe rq res) w).

Definition is_stripe (pay_method : option string) : bool :=
  match pay_method with
  | Some s => String.eqb s "stripe"
  | None => false
  end.

Definition checkout (post : bool) (data : form_t) : M response :=
  cart <- session_get_cart ;;
  match cart with
  | [] =>
      flash "Your cart is empty" "error" ;;
      ret (redirect url_index)
  | _ :: _ =>
      it <- lift (checkout_loop cart [] 0) ;;
      let items := fst it in
      let total := snd it in
      if negb post then ret (Render (CheckoutPage items total))
      else
        let name := form_get data "name" in
        let email := form_get data "email" in
        let phone := form_get data "phone" in
        let address := form_get data "address" in
        let delivery_type := form_get data "delivery_type" in
        let pay_method := form_get data "pay_method" in
        if (negb (truthy name) || negb (truthy phone))%bool then
          flash "Please enter name and phone" "error" ;;
          ret (redirect url_checkout)
        else
          res <- insert_order name email phone address delivery_type
                   (Json.dumps (items_value items)) total 0 ;;
          match res with
          | DbError e =>
              flash ("Database error: " +++ e) "error" ;;
              ret (redirect url_checkout)
          | DbOk order_id =>
              session_pop_cart ;;
              _ <- send_order_email email name order_id items total
                     delivery_type ;;
              if (is_stripe pay_method
                  && negb (String.eqb (STRIPE_SECRET cfg) EmptyString))%bool
              then
                line_items <- lift (stripe_lines items) ;;
                session_stripe <-
                  stripe_session_create (stripe_params line_items order_id) ;;
                match session_stripe with
                | StripeSession url => ret (Redirect url 303)
                | StripeError e =>
                    flash ("Payment processing error: " +++ e) "error" ;;
                    ret (redirect url_checkout)
                end
              else ret (redirect (url_success_for order_id))
          end
  end.

(** ** [/success] *)
Definition success (order_id : option string) : M response :=
  ret (Render (SuccessPage order_id)).

(** ** [/admin] *)

(** [ORDER BY id DESC] *)
Fixpoint insert_desc (r : order_row) (rows : list order_row) : list order_row :=
  match rows with
  | [] => [r]
  | r' :: rest =>
      if r_id r' <=? r_id r then r :: rows else r' :: insert_desc r rest
  end.

Definition order_by_id_desc (rows : list order_row) : list order_row :=
  fold_right insert_desc [] rows.

Definition order_of_row (r : order_row) (items : Json.value) : order :=
  {| o_id := r_id r; o_customer_name := r_customer_name r;
     o_email := r_email r; o_phone := r_phone r; o_address := r_address r;
     o_delivery_type := r_delivery_type r; o_items := items;
     o_total := r_total r; o_paid := r_paid r |}.

Fixpoint admin_loop (rows : list order_row) (acc : list order)
  : outcome (list order) :=
  match rows with
  | [] => Ok acc
  | r :: rest =>
      match Json.loads (r_items r) with
      | None => Raise JSONDecodeError
      | Some v => admin_loop rest (acc ++ [order_of_row r v])
      end
  end.

(** The [SELECT] block: connect, select, fetch all rows. *)
Definition select_orders : M (db_result (list order_row)) :=
  fun w =>
    match sqlite_error svc with
    | Some e => (Ok (DbError e), w)
    | None => (Ok (DbOk (order_by_id_desc (orders w))), w)
    end.

Definition admin (p : option string) : M response :=
  let admin_pass := match ADMIN_PASSWORD cfg with
                    | Some s => s
                    | None => "admin123"%string
                    end in
  if negb (match p with Some s => String.eqb s admin_pass | None => false end)
  then ret (Render (AdminPage None true))
  else
    res <- select_orders ;;
    match res with
    | DbError _ => ret (Render (AdminPage None false))
    | DbOk rows =>
        orders <- lift (admin_loop rows []) ;;
        ret (Render (AdminPage (Some orders) false))
    end.

(** ** Dispatch *)
Definition handle (rq : request) : M response :=
  match rq with
  | GetIndex => index
  | GetAddToCart pid => add_to_cart pid
  | GetCart => cart
  | PostUpdateCart data => update_cart data
  | GetCheckout => checkout false []
  | PostCheckout data => checkout true data
  | GetSuccess order_id => success order_id
  | GetAdmin p => admin p
  end.

End App.

(** The state after [init_db()] on a fresh database, with a new session. *)
Definition init_world : world :=
  {| session_cart := None; session_flashes := []; orders := [];
     orders_seq := 0; trace := [] |}.

(** A sequence of requests; the settings (the catalog among them) and
    the behaviour of the services may differ from one to the next.  An
    exception ends its request with an error page and the next request
    is served. *)
Fixpoint serve (rqs : list (config * services * request)) (w : world) : world :=
  match rqs with
  | [] => w
  | (cfg, svc, rq) :: rest => serve rest (snd (handle cfg svc rq w))
  end.

(* ------------------------------------------------------------------ *)
(** * Notions used in the statements *)

(** The row a successful checkout inserts. *)
Definition new_row (w : world) (data : form_t) (items : list line_item)
  (total : Z) : order_row :=
  {| r_id := orders_seq w + 1;
     r_customer_name := form_get data "name";
     r_email := form_get data "email";
     r_phone := form_get data "phone";
     r_address := form_get data "address";
     r_delivery_type := form_get data "delivery_type";
     r_items := Json.dumps (items_value items);
     r_total := real_of_int total;
     r_paid := 0 |}.

(** The request inserted an order: the table grew by one row. *)
Definition order_inserted (w w' : world) : Prop :=
  exists row, orders w' = orders w ++ [row].

(** Events of the notification and payment steps. *)
Definition is_notify_or_payment (e : event) : Prop :=
  match e with
  | EvEmail _ _ | EvStripe _ _ => True
  | EvInsert _ | EvCartPopped => False
  end.

Definition is_stripe_event (e : event) : bool :=
  match e with
  | EvStripe _ _ => true
  | _ => false
  end.

(** The required fields a submission leaves empty, in the spec's words:
    [name] and [phone] must be non-empty. *)
Definition missing_fields (data : form_t) : list string :=
  (if truthy (form_get data "name") then [] else ["name"%string])
  ++ (if truthy (form_get data "phone") then [] else ["phone"%string]).

(** The text [s] occurs in what the visitor gets back: the target of the
    redirect or a message flashed by the request. *)
Definition response_mentions (s : string) (resp : outcome response)
  (flashed : list (string * string)) : bool :=
  match resp with
  | Ok (Redirect location _) => contains s location
  | _ => false
  end
  || existsb (fun f => contains s (fst f)) flashed.

(** Sum of a list of amounts, as Python's [sum]. *)
Definition sum (l : list Z) : Z := fold_left Z.add l 0.

(** The catalog entry of a cart key, when [get_product] returns one. *)
Definition resolved (cfg : config) (pid : string) : option product :=
  match get_product cfg (VStr pid) with
  | Ok (Some p) => Some p
  | _ => None
  end.

(** The cart entries that resolve, each with its product. *)
Fixpoint resolvable (cfg : config) (c : cart_t) : list (product * Z) :=
  match c with
  | [] => []
  | (pid, qty) :: rest =>
      match resolved cfg pid with
      | Some p => (p, qty) :: resolvable cfg rest
      | None => resolvable cfg rest
      end
  end.

Definition line_item_of (pq : product * Z) : line_item :=
  {| li_id := p_id (fst pq); li_name := p_name (fst pq);
     li_price := p_price (fst pq); li_qty := snd pq |}.

(** Every row carries an id the counter has already passed. *)
Definition db_wf (w : world) : Prop :=
  Forall (fun r => r_id r <= orders_seq w) (orders w).

Definition cart_item_of (pq : product * Z) : cart_item :=
  {| ci_product := fst pq; ci_qty := snd pq;
     ci_subtotal := p_price (fst pq) * snd pq |}.

(** Every key of the cart is an integer literal for [int()]. *)
Definition integer_keys (c : cart_t) : Prop :=
  forall pid, In pid (dict_keys c) -> int_of_str pid <> None.

(** The quantity a field of the update form asks for: its first value
    read by [int()], or 0 when that fails. *)
Definition submitted_qty (data : form_t) (key : string) : Z :=
  match form_get data key with
  | Some v => match int_of_str v with
              | Some q => q
              | None => 0
              end
  | None => 0
  end.

(** The quantity of a product in the session's cart, 0 when absent. *)
Definition cart_qty (w : world) (pid : string) : Z :=
  match session_cart w with
  | Some c => dict_get_default c pid 0
  | None => 0
  end.

(** The [items] column of the row decodes. *)
Definition loadable (r : order_row) : Prop :=
  exists v, Json.loads (r_items r) = Some v.

(** The decoded [items] column of a row. *)
Definition decode (r : order_row) : Json.value :=
  match Json.loads (r_items r) with
  | Some v => v
  | None => Json.Null
  end.

(** The invariant of the [orders] table: the ids are below the counter
    and every snapshot decodes. *)
Definition db_inv (w : world) : Prop :=
  Forall (fun r => r_id r <= orders_seq w /\ loadable r) (orders w).

(** The password the admin page compares with. *)
Definition admin_pass (cfg : config) : string :=
  match ADMIN_PASSWORD cfg with
  | Some s => s
  | None => "admin123"%string
  end.

(** The state right after the insert and the [session.pop]. *)
Definition persisted_world (w : world) (data : form_t)
  (items : list line_item) (total : Z) : world :=
  let row := new_row w data items total in
  log EvCartPopped (set_cart None (log (EvInsert row) (add_row row w))).

(** The notification step does nothing unless the mail account is
    configured and the visitor gave an address. *)
Definition email_skipped (cfg : config) (data : form_t) : bool :=
  (negb (truthy (EMAIL_USER cfg)) || negb (truthy (EMAIL_PASS cfg))
   || negb (truthy (form_get data "email")))%bool.

(** The state after the notification step. *)
Definition notified_world (cfg : config) (svc : services) (w : world)
  (data : form_t) (items : list line_item) (total : Z) : world :=
  let w1 := persisted_world w data items total in
  if email_skipped cfg data then w1
  else
    let msg := order_email cfg (form_get data "email") (form_get data "name")
                 (orders_seq w + 1) items total (form_get data "delivery_type") in
    log (EvEmail msg (smtp_sends svc msg)) w1.

(** External payment is requested and configured. *)
Definition wants_stripe (cfg : config) (data : form_t) : bool :=
  (is_stripe (form_get data "pay_method")
   && negb (String.eqb (STRIPE_SECRET cfg) EmptyString))%bool.

(** The submission passes the validation of the required fields. *)
Definition valid_form (data : form_t) : bool :=
  (truthy (form_get data "name") && truthy (form_get data "phone"))%bool.

(** [session.get("cart", {})], as a function of the state. *)
Definition cart_of (w : world) : cart_t :=
  match session_cart w with
  | Some c => c
  | None => []
  end.

(** The checkout item that stands for an item of the cart page. *)
Definition line_item_of_cart_item (ci : cart_item) : line_item :=
  {| li_id := p_id (ci_product ci); li_name := p_name (ci_product ci);
     li_price := p_price (ci_product ci); li_qty := ci_qty ci |}.

(** A cart whose quantities are all at least 1. *)
Definition cart_wf (c : cart_t) : Prop :=
  Forall (fun kv => 0 < snd kv) c.

Definition session_cart_wf (w : world) : Prop :=
  match session_cart w with
  | Some c => cart_wf c
  | None => True
  end.

(** The ids 1, 2, ..., n. *)
Definition first_ids (n : nat) : list Z := map Z.of_nat (seq 1 n).

Definition is_email_event (e : event) : bool :=
  match e with
  | EvEmail _ _ => true
  | _ => false
  end.

(** Two behaviours of the services that differ in the mail transport
    only. *)
Definition same_but_smtp (svc svc' : services) : Prop :=
  sqlite_error svc = sqlite_error svc'
  /\ forall rq, stripe_create svc rq = stripe_create svc' rq.

(** A mail transport that always fails. *)
Definition no_mail_svc : services :=
  {| sqlite_error := None;
     smtp_sends := fun _ => false;
     stripe_create := fun _ => StripeSession "https://pay.example/cs_test_a1" |}.

Definition mail_form : form_t :=
  [("name", "A"); ("email", "a@example.com"); ("phone", "123");
   ("pay_method", "stripe")]%string.

(** The settings without a Stripe key. *)
Definition cash_cfg : config :=
  {| PRODUCTS := [ {| p_id := 1; p_name := "Rocket"; p_price := 10 |};
                   {| p_id := 2; p_name := "Sparkler"; p_price := 25 |} ];
     STRIPE_SECRET := EmptyString;
     EMAIL_USER := Some "shop@example.com"%string;
     EMAIL_PASS := Some "app-password"%string;
     ADMIN_PASSWORD := Some "s3cret"%string; url_root := "http://localhost:5000" |}.

(** Sample settings for the concrete runs. *)
Definition demo_products : list product :=
  [ {| p_id := 1; p_name := "Rocket"; p_price := 10 |};
    {| p_id := 2; p_name := "Sparkler"; p_price := 25 |} ].

Definition demo_cfg : config :=
  {| PRODUCTS := demo_products; STRIPE_SECRET := "sk_test_1";
     EMAIL_USER := Some "shop@example.com"%string;
     EMAIL_PASS := Some "app-password"%string;
     ADMIN_PASSWORD := None; url_root := "http://localhost:5000" |}.

Definition demo_svc : services :=
  {| sqlite_error := None;
     smtp_sends := fun _ => true;
     stripe_create := fun _ => StripeSession "https://pay.example/cs_test_a1" |}.

(** The settings when [products.json] is missing: an empty catalog. *)
Definition empty_cfg : config :=
  {| PRODUCTS := []; STRIPE_SECRET := "sk_test_1";
     EMAIL_USER := Some "shop@example.com"%string;
     EMAIL_PASS := Some "app-password"%string;
     ADMIN_PASSWORD := None; url_root := "http://localhost:5000" |}.

(** A provider that refuses the payment session. *)
Definition declined_svc : services :=
  {| sqlite_error := None;
     smtp_sends := fun _ => true;
     stripe_create := fun _ => StripeError "Your card was declined." |}.

Definition stripe_form : form_t :=
  [("name", "A"); ("phone", "123"); ("pay_method", "stripe")]%string.

(** The catalog after a price change: the rocket now costs 99. *)
Definition pricier_cfg : config :=
  {| PRODUCTS := [ {| p_id := 1; p_name := "Rocket"; p_price := 99 |};
                   {| p_id := 2; p_name := "Sparkler"; p_price := 30 |} ];
     STRIPE_SECRET := "sk_test_1";
     EMAIL_USER := Some "shop@example.com"%string;
     EMAIL_PASS := Some "app-password"%string;
     ADMIN_PASSWORD := None; url_root := "http://localhost:5000" |}.

(** A database that refuses the insert. *)
Definition locked_svc : services :=
  {| sqlite_error := Some "database is locked"%string;
     smtp_sends := fun _ => true;
     stripe_create := fun _ => StripeSession "https://pay.example/cs_test_a1" |}.

(** A cart of products that left the catalog. *)
Definition discontinued_cart : cart_t := [("7", 3); ("9", 1)]%string.

(** The items of the cart [{1: 2, 2: 1}] under the sample catalog. *)
Definition two_items : list line_item :=
  [ {| li_id := 1; li_name := "Rocket"; li_price := 10; li_qty := 2 |};
    {| li_id := 2; li_name := "Sparkler"; li_price := 25; li_qty := 1 |} ].

Definition with_cart (c : cart_t) : world := set_cart (Some c) init_world.

Definition demo_form : form_t :=
  [("name", "A"); ("phone", "123")]%string.

(* ================================================================== *)
(** * Proofs *)

(** ** Concrete runs *)

Example int_examples :
  map int_of_str ["12"; " 7 "; "-3"; "+5"; "1_000"; "007"; "0"; "0_7"; "-0"]%string
  = [Some 12; Some 7; Some (-3); Some 5; Some 1000; Some 7; Some 0; Some 7; Some 0]
  /\ map int_of_str [EmptyString; "abc"; "1.5"; "- 5"; "_1"; "1_"; "1__0"; "+";
                     "1 2"; "+_1"; String (ascii_of_nat 28) "5"]%string
  = [None; None; None; None; None; None; None; None; None; None; None]
  /\ map int_of_str [String (ascii_of_nat 160) "5"; String (ascii_of_nat 133) "5";
                     String "5" (String (ascii_of_nat 11) EmptyString)]
  = [Some 5; Some 5; Some 5].
Proof. repeat split; reflexivity. Qed.

Example str_examples : map str [0; 7; 42; -3] = ["0"; "7"; "42"; "-3"]%string.
Proof. reflexivity. Qed.

Example split1_examples :
  map (split1 "-") ["qty-12"; "qty-a-b"; "qty"; "qty-"]%string
  = [["qty"; "12"]; ["qty"; "a-b"]; ["qty"]; ["qty"; EmptyString]]%string.
Proof. reflexivity. Qed.

(** The worked example of the spec: cart [{1: 2, 2: 1}] with prices 10
    and 25 gives a total of 45, and the checkout stores it unpaid and
    empties the cart. *)
Example spec_example_checkout :
  let w := with_cart [("1", 2); ("2", 1)]%string in
  let r := checkout demo_cfg demo_svc true demo_form w in
  fst r = Ok (redirect "/success?order_id=1")
  /\ session_cart (snd r) = None
  /\ map (fun o => (r_id o, r_total o, r_paid o)) (orders (snd r)) = [(1, 45, 0)]
  /\ option_map (fun o => Json.loads (r_items o)) (hd_error (orders (snd r)))
     = Some (Some (items_value
                     [ {| li_id := 1; li_name := "Rocket"; li_price := 10; li_qty := 2 |};
                       {| li_id := 2; li_name := "Sparkler"; li_price := 25; li_qty := 1 |} ])).
Proof. vm_compute. repeat split. Qed.

(** ** The paths through [checkout] *)

(** Run [checkout] up to the end of its loop over a non-empty cart. *)
Ltac enter_checkout c Hc Hl :=
  unfold checkout, bind, session_get_cart; rewrite Hc;
  destruct c as [|? ?]; [congruence|];
  unfold lift; rewrite Hl; cbn [negb fst snd].

(** Split the validation test into its two fields. *)
Ltac split_valid Hv :=
  unfold valid_form in Hv; apply andb_true_iff in Hv;
  let Hn := fresh "Hn" in
  let Hp := fresh "Hp" in
  destruct Hv as [Hn Hp]; rewrite Hn, Hp; cbn [negb orb].

(** With [int] prices the conversion of [price * 100] changes nothing
    and never fails. *)
Lemma unit_amount_int p : unit_amount (NInt p) = Ok (p * 100).
Proof. reflexivity. Qed.

Lemma stripe_lines_int items : stripe_lines items = Ok (map stripe_line_of items).
Proof.
  induction items as [|it rest IH]; [reflexivity|].
  cbn [stripe_lines map]. rewrite unit_amount_int, IH. reflexivity.
Qed.

Section CheckoutPaths.

Variable cfg : config.
Variable svc : services.

Lemma checkout_no_cart post data w :
  session_cart w = None \/ session_cart w = Some [] ->
  checkout cfg svc post data w
  = (Ok (redirect url_index), add_flash ("Your cart is empty", "error")%string w).
Proof.
  intros [H | H]; unfold checkout, bind, session_get_cart; rewrite H; reflexivity.
Qed.

Lemma checkout_raises post data w c e :
  session_cart w = Some c -> c <> [] ->
  checkout_loop cfg c [] 0 = Raise e ->
  checkout cfg svc post data w = (Raise e, w).
Proof.
  intros Hc Hne Hl. enter_checkout c Hc Hl. reflexivity.
Qed.

Lemma checkout_get data w c items total :
  session_cart w = Some c -> c <> [] ->
  checkout_loop cfg c [] 0 = Ok (items, total) ->
  checkout cfg svc false data w = (Ok (Render (CheckoutPage items total)), w).
Proof.
  intros Hc Hne Hl. enter_checkout c Hc Hl. reflexivity.
Qed.

Lemma checkout_invalid data w c items total :
  session_cart w = Some c -> c <> [] ->
  checkout_loop cfg c [] 0 = Ok (items, total) ->
  valid_form data = false ->
  checkout cfg svc true data w
  = (Ok (redirect url_checkout),
     add_flash ("Please enter name and phone", "error")%string w).
Proof.
  intros Hc Hne Hl Hv. enter_checkout c Hc Hl.
  unfold valid_form in Hv.
  destruct (truthy (form_get data "name")), (truthy (form_get data "phone"));
    try discriminate; reflexivity.
Qed.

Lemma checkout_db_error data w c items total e :
  session_cart w = Some c -> c <> [] ->
  checkout_loop cfg c [] 0 = Ok (items, total) ->
  valid_form data = true ->
  sqlite_error svc = Some e ->
  checkout cfg svc true data w
  = (Ok (redirect url_checkout),
     add_flash ("Database error: " +++ e, "error"%string) w).
Proof.
  intros Hc Hne Hl Hv He. enter_checkout c Hc Hl. split_valid Hv.
  unfold insert_order. rewrite He. reflexivity.
Qed.

Lemma checkout_overflow data w c items total :
  session_cart w = Some c -> c <> [] ->
  checkout_loop cfg c [] 0 = Ok (items, total) ->
  valid_form data = true ->
  sqlite_error svc = None ->
  fits_int64 total = false ->
  checkout cfg svc true data w = (Raise OverflowError, w).
Proof.
  intros Hc Hne Hl Hv He Hf. enter_checkout c Hc Hl. split_valid Hv.
  unfold insert_order. rewrite He, Hf. reflexivity.
Qed.

Lemma checkout_persisted data w c items total :
  session_cart w = Some c -> c <> [] ->
  checkout_loop cfg c [] 0 = Ok (items, total) ->
  valid_form data = true ->
  sqlite_error svc = None ->
  fits_int64 total = true ->
  checkout cfg svc true data w
  = let w2 := notified_world cfg svc w data items total in
    let order_id := orders_seq w + 1 in
    if wants_stripe cfg data then
      let rq := stripe_request_of cfg items order_id in
      let w3 := log (EvStripe rq (stripe_create svc rq)) w2 in
      match stripe_create svc rq with
      | StripeSession url => (Ok (Redirect url 303), w3)
      | StripeError e =>
          (Ok (redirect url_checkout),
           add_flash ("Payment processing error: " +++ e, "error"%string) w3)
      end
    else (Ok (redirect (url_success_for order_id)), w2).
Proof.
  intros Hc Hne Hl Hv He Hf. enter_checkout c Hc Hl. split_valid Hv.
  unfold insert_order. rewrite He, Hf.
  unfold session_pop_cart, send_order_email, notified_world, email_skipped,
    wants_stripe, persisted_world, new_row.
  cbn [r_id].
  destruct (negb (truthy (EMAIL_USER cfg)) || negb (truthy (EMAIL_PASS cfg))
            || negb (truthy (form_get data "email")))%bool;
    unfold ret;
    destruct (is_stripe (form_get data "pay_method")
              && negb (String.eqb (STRIPE_SECRET cfg) EmptyString))%bool;
    cbn zeta; try reflexivity;
    unfold lift; rewrite stripe_lines_int;
    fold (stripe_request_of cfg items (orders_seq w + 1));
    unfold stripe_session_create;
    destruct (stripe_create svc (stripe_request_of cfg items (orders_seq w + 1)));
    reflexivity.
Qed.

End CheckoutPaths.

(** ** The state after a persisted order *)

Lemma app_one_neq {A} (l : list A) (x : A) : l ++ [x] <> l.
Proof.
  intros H. rewrite <- (app_nil_r l) in H at 2.
  apply app_inv_head in H. discriminate.
Qed.

Lemma notified_world_orders cfg svc w data items total :
  orders (notified_world cfg svc w data items total)
  = orders w ++ [new_row w data items total].
Proof. unfold notified_world. destruct (email_skipped cfg data); reflexivity. Qed.

Lemma notified_world_cart cfg svc w data items total :
  session_cart (notified_world cfg svc w data items total) = None.
Proof. unfold notified_world. destruct (email_skipped cfg data); reflexivity. Qed.

Lemma notified_world_flashes cfg svc w data items total :
  session_flashes (notified_world cfg svc w data items total) = session_flashes w.
Proof. unfold notified_world. destruct (email_skipped cfg data); reflexivity. Qed.

Lemma notified_world_seq cfg svc w data items total :
  orders_seq (notified_world cfg svc w data items total) = orders_seq w + 1.
Proof. unfold notified_world. destruct (email_skipped cfg data); reflexivity. Qed.

Lemma notified_world_trace cfg svc w data items total :
  exists rest,
    trace (notified_world cfg svc w data items total)
    = trace w ++ EvInsert (new_row w data items total) :: EvCartPopped :: rest
    /\ Forall is_notify_or_payment rest
    /\ forallb (fun e => negb (is_stripe_event e)) rest = true.
Proof.
  unfold notified_world. destruct (email_skipped cfg data).
  - exists []. cbn. rewrite <- app_assoc. repeat split; constructor.
  - eexists [_]. cbn. rewrite <- !app_assoc. cbn. repeat split.
    repeat constructor.
Qed.

(** What a checkout POST can do to the state: nothing but a flash (or
    nothing at all), or insert, clear and then notify and charge. *)
Lemma checkout_post_cases cfg svc data w :
  let w' := snd (checkout cfg svc true data w) in
  (orders w' = orders w /\ session_cart w' = session_cart w
   /\ orders_seq w' = orders_seq w /\ trace w' = trace w)
  \/ (exists c items total rest,
        session_cart w = Some c /\ c <> []
        /\ checkout_loop cfg c [] 0 = Ok (items, total)
        /\ valid_form data = true /\ sqlite_error svc = None
        /\ fits_int64 total = true
        /\ orders w' = orders w ++ [new_row w data items total]
        /\ orders_seq w' = orders_seq w + 1
        /\ session_cart w' = None
        /\ trace w' = trace w ++ EvInsert (new_row w data items total)
                                 :: EvCartPopped :: rest
        /\ Forall is_notify_or_payment rest).
Proof.
  intros w'. subst w'.
  destruct (session_cart w) as [[|x c']|] eqn:Hc.
  - rewrite checkout_no_cart by auto. left. cbn. auto.
  - assert (Hne : x :: c' <> []) by discriminate.
    destruct (checkout_loop cfg (x :: c') [] 0) as [[items total]|e] eqn:Hl.
    + destruct (valid_form data) eqn:Hv.
      * destruct (sqlite_error svc) as [e|] eqn:He.
        -- rewrite (checkout_db_error _ _ _ _ _ _ _ _ Hc Hne Hl Hv He).
           left. cbn. auto.
        -- destruct (fits_int64 total) eqn:Hfit;
             [|rewrite (checkout_overflow _ _ _ _ _ _ _ Hc Hne Hl Hv He Hfit);
               left; cbn; auto].
           rewrite (checkout_persisted _ _ _ _ _ _ _ Hc Hne Hl Hv He Hfit).
           right. exists (x :: c'), items, total.
           destruct (notified_world_trace cfg svc w data items total)
             as (rest & Ht & Hf & _).
           cbn zeta.
           destruct (wants_stripe cfg data).
           ++ exists (rest ++ [EvStripe (stripe_request_of cfg items (orders_seq w + 1))
                                 (stripe_create svc (stripe_request_of cfg items (orders_seq w + 1)))]).
              assert (Hf' : Forall is_notify_or_payment
                              (rest ++ [EvStripe (stripe_request_of cfg items (orders_seq w + 1))
                                          (stripe_create svc (stripe_request_of cfg items (orders_seq w + 1)))])).
              { apply Forall_app. split; [assumption|]. repeat constructor. }
              destruct (stripe_create svc _); cbn;
                rewrite notified_world_orders, notified_world_cart,
                  notified_world_seq, Ht, <- app_assoc; cbn;
                repeat split; auto.
           ++ exists rest. cbn.
              rewrite notified_world_orders, notified_world_cart,
                notified_world_seq, Ht. repeat split; auto.
      * rewrite (checkout_invalid _ _ _ _ _ _ _ Hc Hne Hl Hv). left. cbn. auto.
    + rewrite (checkout_raises _ _ _ _ _ _ _ Hc Hne Hl). left. cbn. auto.
  - rewrite checkout_no_cart by auto. left. cbn. auto.
Qed.

(** ** C1 *)

(** C1. In every checkout POST run the cart is cleared exactly when the
    order was inserted.  After an insert the session has no cart, and the
    request's effects are the insert, then the [session.pop], then only
    notification and payment events, whatever these answer; without an
    insert the table, the cart and the effect log are as before. *)
Theorem C1_cart_cleared_iff_order_inserted cfg svc data w :
  let w' := snd (checkout cfg svc true data w) in
  exists tr,
    trace w' = trace w ++ tr
    /\ (In EvCartPopped tr <-> order_inserted w w')
    /\ (order_inserted w w' ->
        session_cart w' = None
        /\ exists row rest,
             orders w' = orders w ++ [row]
             /\ tr = EvInsert row :: EvCartPopped :: rest
             /\ Forall is_notify_or_payment rest)
    /\ (~ order_inserted w w' ->
        orders w' = orders w /\ session_cart w' = session_cart w /\ tr = []).
Proof.
  intros w'. subst w'.
  destruct (checkout_post_cases cfg svc data w)
    as [(Ho & Hc & _ & Ht) | (c & items & total & rest & _ & _ & _ & _ & _
                              & _ & Ho & _ & Hc & Ht & Hf)].
  - exists []. rewrite app_nil_r.
    assert (Hno : ~ order_inserted w (snd (checkout cfg svc true data w))).
    { intros [row Hrow]. rewrite Ho in Hrow. symmetry in Hrow.
      exact (app_one_neq _ _ Hrow). }
    split; [assumption|]. split; [|split].
    + split; [intros [] | intros H; contradiction].
    + intros H; contradiction.
    + intros _. auto.
  - exists (EvInsert (new_row w data items total) :: EvCartPopped :: rest).
    assert (Hyes : order_inserted w (snd (checkout cfg svc true data w))).
    { eexists. exact Ho. }
    split; [assumption|]. split; [|split].
    + split; [intros _; assumption | intros _; cbn; auto].
    + intros _. split; [assumption|].
      exists (new_row w data items total), rest. auto.
    + intros H; contradiction.
Qed.

Lemma C1_witness :
  session_cart
    (snd (checkout demo_cfg declined_svc true stripe_form
            (with_cart [("1", 2); ("2", 1)]%string))) = None
  /\ session_cart
       (snd (checkout demo_cfg locked_svc true stripe_form
               (with_cart [("1", 2); ("2", 1)]%string)))
     = Some [("1", 2); ("2", 1)]%string.
Proof.
  split.
  - destruct (C1_cart_cleared_iff_order_inserted demo_cfg declined_svc stripe_form
                (with_cart [("1", 2); ("2", 1)]%string))
      as (tr & _ & _ & Hyes & _).
    apply Hyes. eexists. reflexivity.
  - destruct (C1_cart_cleared_iff_order_inserted demo_cfg locked_svc stripe_form
                (with_cart [("1", 2); ("2", 1)]%string))
      as (tr & _ & _ & _ & Hno).
    apply Hno. intros [row Hrow]. vm_compute in Hrow. discriminate.
Defined.

(** ** Substrings *)

Lemma append_empty_r (s : string) : s +++ EmptyString = s.
Proof. induction s; cbn; congruence. Qed.

Lemma prefix_app (a b : string) : String.prefix a (a +++ b) = true.
Proof.
  induction a as [|c a IH]; cbn.
  - destruct b; reflexivity.
  - destruct (ascii_dec c c); [assumption | congruence].
Qed.

Lemma contains_prefix (a b : string) : String.prefix a b = true -> contains a b = true.
Proof. intros H. destruct b; cbn in *; rewrite H; reflexivity. Qed.

(** A text contains each of its infixes. *)
Lemma contains_infix (pre s post : string) : contains s (pre +++ s +++ post) = true.
Proof.
  induction pre as [|c pre IH]; cbn [String.append].
  - apply contains_prefix, prefix_app.
  - cbn [contains]. rewrite IH. apply orb_true_r.
Qed.

Lemma prefix_inv (a b : string) :
  String.prefix a b = true -> exists post, b = a +++ post.
Proof.
  revert b. induction a as [|c a IH]; intros b H.
  - exists b. reflexivity.
  - destruct b as [|c' b]; cbn [String.prefix] in H; [discriminate|].
    destruct (ascii_dec c c') as [<-|]; [|discriminate].
    destruct (IH b H) as [post ->]. exists post. reflexivity.
Qed.

(** [contains] decides the infix relation. *)
Lemma contains_spec (s h : string) :
  contains s h = true <-> exists pre post, h = pre +++ s +++ post.
Proof.
  split.
  - induction h as [|c h IH]; cbn [contains]; intros H;
      apply orb_true_iff in H; destruct H as [H | H].
    + destruct (prefix_inv _ _ H) as [post ->]. exists EmptyString, post. reflexivity.
    + discriminate.
    + destruct (prefix_inv _ _ H) as [post ->]. exists EmptyString, post. reflexivity.
    + destruct (IH H) as (pre & post & ->). exists (String c pre), post. reflexivity.
  - intros (pre & post & ->). apply contains_infix.
Qed.

(** ** C2 *)

(** C2. When the insert raises a storage error during a checkout
    submission, no order is recorded, the visitor is sent back to the
    checkout page with an error message that includes the text of the
    storage error, and the cart is exactly what it was. *)
Theorem C2_storage_error_keeps_cart cfg svc data w c items total e :
  session_cart w = Some c -> c <> [] ->
  checkout_loop cfg c [] 0 = Ok (items, total) ->
  valid_form data = true ->
  sqlite_error svc = Some e ->
  let r := checkout cfg svc true data w in
  fst r = Ok (redirect url_checkout)
  /\ orders (snd r) = orders w
  /\ orders_seq (snd r) = orders_seq w
  /\ trace (snd r) = trace w
  /\ session_cart (snd r) = Some c
  /\ exists msg,
       session_flashes (snd r) = session_flashes w ++ [(msg, "error"%string)]
       /\ msg = "Database error: " +++ e
       /\ contains e msg = true.
Proof.
  intros Hc Hne Hl Hv He r. subst r.
  rewrite (checkout_db_error _ _ _ _ _ _ _ _ Hc Hne Hl Hv He). cbn.
  repeat split; auto.
  exists ("Database error: " +++ e). repeat split.
  rewrite <- (append_empty_r e) at 2. apply contains_infix.
Qed.

Lemma C2_witness :
  let w := with_cart [("1", 2); ("2", 1)]%string in
  let r := checkout demo_cfg locked_svc true demo_form w in
  fst r = Ok (redirect url_checkout)
  /\ orders (snd r) = orders w
  /\ orders_seq (snd r) = orders_seq w
  /\ trace (snd r) = trace w
  /\ session_cart (snd r) = Some [("1", 2); ("2", 1)]%string
  /\ exists msg,
       session_flashes (snd r) = session_flashes w ++ [(msg, "error"%string)]
       /\ msg = "Database error: " +++ "database is locked"
       /\ contains "database is locked" msg = true.
Proof.
  apply (C2_storage_error_keeps_cart demo_cfg locked_svc demo_form
           (with_cart [("1", 2); ("2", 1)]%string) [("1", 2); ("2", 1)]%string
           [ {| li_id := 1; li_name := "Rocket"; li_price := 10; li_qty := 2 |};
             {| li_id := 2; li_name := "Sparkler"; li_price := 25; li_qty := 1 |} ]
           45 "database is locked").
  - reflexivity.
  - discriminate.
  - reflexivity.
  - reflexivity.
  - reflexivity.
Defined.

(** ** Product lookup and the derivation of line items *)

Lemma get_product_in_parsed products v n :
  int v = Some n ->
  get_product_in products v = Ok (find (fun p => p_id p =? n) products).
Proof.
  intros Hn. induction products as [|p rest IH]; cbn.
  - reflexivity.
  - rewrite Hn. destruct (p_id p =? n); [reflexivity | exact IH].
Qed.

Lemma get_product_in_unparsed products v :
  int v = None -> products <> [] ->
  get_product_in products v = Raise ValueError.
Proof.
  intros Hn Hne. destruct products as [|p rest]; [congruence|].
  cbn. rewrite Hn. reflexivity.
Qed.


Lemma get_product_resolved cfg pid r :
  get_product cfg (VStr pid) = Ok r -> resolved cfg pid = r.
Proof. unfold resolved. intros ->. destruct r; reflexivity. Qed.

Lemma integer_key_returns cfg pid :
  int_of_str pid <> None -> exists r, get_product cfg (VStr pid) = Ok r.
Proof.
  intros H. destruct (int_of_str pid) as [n|] eqn:Hn; [|congruence].
  eexists. apply (get_product_in_parsed _ (VStr pid) n Hn).
Qed.

Lemma fold_add_init (l : list Z) (a : Z) :
  fold_left Z.add l a = a + fold_left Z.add l 0.
Proof.
  revert a. induction l as [|y l IH]; intros a; cbn.
  - lia.
  - rewrite (IH (a + y)), (IH y). lia.
Qed.

Lemma sum_cons x l : sum (x :: l) = x + sum l.
Proof. unfold sum. cbn. apply fold_add_init. Qed.

(** The loop of the checkout, on a cart whose lookups all return: the
    resolvable entries in cart order, and the running total. *)
Lemma checkout_loop_returns cfg c :
  (forall pid, In pid (dict_keys c) -> exists r, get_product cfg (VStr pid) = Ok r) ->
  forall items total,
    checkout_loop cfg c items total
    = Ok (items ++ map line_item_of (resolvable cfg c),
          total + sum (map (fun it => li_price it * li_qty it)
                         (map line_item_of (resolvable cfg c)))).
Proof.
  induction c as [|[pid qty] rest IH]; intros Hret items total.
  - cbn. rewrite app_nil_r, Z.add_0_r. reflexivity.
  - cbn [checkout_loop resolvable].
    destruct (Hret pid) as [r Hr]; [left; reflexivity|].
    rewrite Hr, (get_product_resolved _ _ _ Hr).
    assert (Hrest : forall pid', In pid' (dict_keys rest) ->
                      exists r', get_product cfg (VStr pid') = Ok r').
    { intros pid' Hin. apply Hret. right. exact Hin. }
    destruct r as [p|].
    + rewrite (IH Hrest). cbn [map]. rewrite sum_cons, <- app_assoc. cbn.
      f_equal. f_equal. lia.
    + apply (IH Hrest).
Qed.

(** The loop of the cart page, likewise. *)
Lemma cart_loop_returns cfg c :
  (forall pid, In pid (dict_keys c) -> exists r, get_product cfg (VStr pid) = Ok r) ->
  forall items total,
    cart_loop cfg c items total
    = Ok (items ++ map cart_item_of (resolvable cfg c),
          total + sum (map ci_subtotal (map cart_item_of (resolvable cfg c)))).
Proof.
  induction c as [|[pid qty] rest IH]; intros Hret items total.
  - cbn. rewrite app_nil_r, Z.add_0_r. reflexivity.
  - cbn [cart_loop resolvable].
    destruct (Hret pid) as [r Hr]; [left; reflexivity|].
    rewrite Hr, (get_product_resolved _ _ _ Hr).
    assert (Hrest : forall pid', In pid' (dict_keys rest) ->
                      exists r', get_product cfg (VStr pid') = Ok r').
    { intros pid' Hin. apply Hret. right. exact Hin. }
    destruct r as [p|].
    + rewrite (IH Hrest). cbn [map]. rewrite sum_cons, <- app_assoc. cbn.
      f_equal. f_equal. lia.
    + apply (IH Hrest).
Qed.

(** A key that [int()] refuses stops both loops, as soon as the catalog
    has a product to compare with. *)
Lemma checkout_loop_raises cfg c :
  PRODUCTS cfg <> [] ->
  (exists pid, In pid (dict_keys c) /\ int_of_str pid = None) ->
  forall items total,
    checkout_loop cfg c items total = Raise ValueError.
Proof.
  intros Hne. induction c as [|[pid qty] rest IH]; intros (bad & Hin & Hbad) items total.
  - destruct Hin.
  - cbn [checkout_loop]. unfold get_product.
    destruct (int_of_str pid) as [n|] eqn:Hn.
    + rewrite (get_product_in_parsed _ (VStr pid) n Hn).
      assert (Hrest : exists pid', In pid' (dict_keys rest) /\ int_of_str pid' = None).
      { exists bad. split; [|assumption].
        destruct Hin as [Heq | Hin]; [|assumption].
        cbn in Heq. subst bad. congruence. }
      destruct (find _ _); apply (IH Hrest).
    + rewrite (get_product_in_unparsed _ (VStr pid) Hn Hne). reflexivity.
Qed.

Lemma cart_loop_raises cfg c :
  PRODUCTS cfg <> [] ->
  (exists pid, In pid (dict_keys c) /\ int_of_str pid = None) ->
  forall items total,
    cart_loop cfg c items total = Raise ValueError.
Proof.
  intros Hne. induction c as [|[pid qty] rest IH]; intros (bad & Hin & Hbad) items total.
  - destruct Hin.
  - cbn [cart_loop]. unfold get_product.
    destruct (int_of_str pid) as [n|] eqn:Hn.
    + rewrite (get_product_in_parsed _ (VStr pid) n Hn).
      assert (Hrest : exists pid', In pid' (dict_keys rest) /\ int_of_str pid' = None).
      { exists bad. split; [|assumption].
        destruct Hin as [Heq | Hin]; [|assumption].
        cbn in Heq. subst bad. congruence. }
      destruct (find _ _); apply (IH Hrest).
    + rewrite (get_product_in_unparsed _ (VStr pid) Hn Hne). reflexivity.
Qed.

(** On a cart whose keys are all integer literals, the cart page and the
    checkout derive the same thing: one item per entry whose id is in the
    catalog, in cart order, each subtotal the unit price times the
    quantity, and the total the sum of the subtotals. *)
Lemma line_items_of_integer_cart cfg c :
  integer_keys c ->
  let joined := resolvable cfg c in
  cart_loop cfg c [] 0
  = Ok (map cart_item_of joined, sum (map ci_subtotal (map cart_item_of joined)))
  /\ checkout_loop cfg c [] 0
     = Ok (map line_item_of joined, sum (map ci_subtotal (map cart_item_of joined)))
  /\ Forall (fun ci => ci_subtotal ci = p_price (ci_product ci) * ci_qty ci)
       (map cart_item_of joined).
Proof.
  intros Hk joined.
  assert (Hret : forall pid, In pid (dict_keys c) ->
                   exists r, get_product cfg (VStr pid) = Ok r).
  { intros pid Hin. apply integer_key_returns, Hk, Hin. }
  split; [|split].
  - rewrite (cart_loop_returns cfg c Hret). reflexivity.
  - rewrite (checkout_loop_returns cfg c Hret). cbn [app]. rewrite Z.add_0_l.
    rewrite !map_map. reflexivity.
  - apply Forall_forall. intros ci Hin. apply in_map_iff in Hin.
    destruct Hin as (pq & <- & _). reflexivity.
Qed.

(** ** C3 *)

(** C3. The derivation of line items does not drop every entry whose
    product id fails to resolve: the key [abc], which the quantity-update
    route stores, resolves to no product, and with it in the cart neither
    the cart page nor the checkout returns items and a total; both raise
    [ValueError]. *)
Theorem C3_non_integer_key_not_dropped :
  let w := snd (update_cart [("qty-abc", "2")]%string init_world) in
  session_cart w = Some [("abc", 2)]%string
  /\ resolved demo_cfg "abc" = None
  /\ cart demo_cfg w = (Raise ValueError, w)
  /\ checkout demo_cfg demo_svc false [] w = (Raise ValueError, w)
  /\ checkout demo_cfg demo_svc true demo_form w = (Raise ValueError, w).
Proof. vm_compute. repeat split. Qed.

(** ** C10 *)

Lemma resolvable_none cfg c :
  (forall pid, In pid (dict_keys c) -> get_product cfg (VStr pid) = Ok None) ->
  resolvable cfg c = [].
Proof.
  induction c as [|[pid qty] rest IH]; intros H; cbn.
  - reflexivity.
  - rewrite (get_product_resolved cfg pid None) by (apply H; left; reflexivity).
    apply IH. intros pid' Hin. apply H. right. exact Hin.
Qed.

(** C10. A non-empty cart none of whose product ids resolve passes the
    empty-cart guard: a submission with name and phone, on a working
    database, inserts an order with an empty items list, total 0 and
    paid 0, and clears the cart. *)
Theorem C10_unresolvable_cart_still_persists cfg svc data w c :
  session_cart w = Some c -> c <> [] ->
  (forall pid, In pid (dict_keys c) -> get_product cfg (VStr pid) = Ok None) ->
  valid_form data = true ->
  sqlite_error svc = None ->
  let w' := snd (checkout cfg svc true data w) in
  exists row,
    orders w' = orders w ++ [row]
    /\ r_id row = orders_seq w + 1
    /\ r_items row = "[]"%string
    /\ Json.loads (r_items row) = Some (Json.List [])
    /\ r_total row = 0
    /\ r_paid row = 0
    /\ session_cart w' = None.
Proof.
  intros Hc Hne Hnone Hv He w'. subst w'.
  assert (Hl : checkout_loop cfg c [] 0 = Ok ([], 0)).
  { rewrite checkout_loop_returns.
    - rewrite (resolvable_none cfg c Hnone). reflexivity.
    - intros pid Hin. eexists. apply Hnone, Hin. }
  destruct (checkout_post_cases cfg svc data w)
    as [(Ho & _) | (c' & items & total & rest & Hc' & _ & Hl' & _ & _
                    & _ & Ho & _ & Hcart & _)].
  - exfalso. revert Ho.
    rewrite (checkout_persisted _ _ _ _ _ _ _ Hc Hne Hl Hv He eq_refl). cbn zeta.
    destruct (wants_stripe cfg data); [destruct (stripe_create svc _)|]; cbn;
      rewrite notified_world_orders; apply app_one_neq.
  - rewrite Hc in Hc'. injection Hc' as <-. rewrite Hl in Hl'.
    injection Hl' as <- <-.
    exists (new_row w data [] 0). repeat split; assumption.
Qed.

Lemma C10_witness :
  let w' := snd (checkout demo_cfg demo_svc true demo_form (with_cart discontinued_cart)) in
  exists row,
    orders w' = orders (with_cart discontinued_cart) ++ [row]
    /\ r_id row = orders_seq (with_cart discontinued_cart) + 1
    /\ r_items row = "[]"%string
    /\ Json.loads (r_items row) = Some (Json.List [])
    /\ r_total row = 0
    /\ r_paid row = 0
    /\ session_cart w' = None.
Proof.
  apply (C10_unresolvable_cart_still_persists demo_cfg demo_svc demo_form
           (with_cart discontinued_cart) discontinued_cart).
  - reflexivity.
  - discriminate.
  - intros pid [<- | [<- | []]]; reflexivity.
  - reflexivity.
  - reflexivity.
Defined.

(** ** Dictionaries *)

Lemma dict_get_set_same {V} (d : dict V) k v : dict_get (dict_set d k v) k = Some v.
Proof.
  induction d as [|[k' v'] r IH]; cbn.
  - rewrite String.eqb_refl. reflexivity.
  - destruct (String.eqb k' k) eqn:E; cbn; rewrite E; [reflexivity | exact IH].
Qed.

Lemma dict_get_set_other {V} (d : dict V) k k' v :
  k <> k' -> dict_get (dict_set d k v) k' = dict_get d k'.
Proof.
  intros Hne. induction d as [|[k0 v0] r IH]; cbn.
  - destruct (String.eqb_spec k k'); [contradiction | reflexivity].
  - destruct (String.eqb_spec k0 k) as [->|Hk]; cbn.
    + destruct (String.eqb_spec k k'); [contradiction | reflexivity].
    + destruct (String.eqb k0 k'); [reflexivity | exact IH].
Qed.

Lemma dict_get_in {V} (d : dict V) k v : dict_get d k = Some v -> In k (dict_keys d).
Proof.
  induction d as [|[k' v'] r IH]; cbn; [discriminate|].
  destruct (String.eqb_spec k' k) as [->|Hk]; [auto|].
  intros H. right. apply IH, H.
Qed.

(** ** The quantity-update form *)

Lemma form_keys_in_acc (l acc : list string) k :
  In k (fold_left (fun acc k => if existsb (String.eqb k) acc then acc else acc ++ [k]) l acc)
  <-> In k acc \/ In k l.
Proof.
  revert acc. induction l as [|x l IH]; intros acc; cbn.
  - tauto.
  - rewrite IH. destruct (existsb (String.eqb x) acc) eqn:E.
    + apply existsb_exists in E. destruct E as (y & Hy & Hxy).
      apply String.eqb_eq in Hxy. subst y.
      split; [tauto|]. intros [H | [<- | H]]; auto.
    + rewrite in_app_iff. cbn. tauto.
Qed.

Lemma form_keys_in data k : In k (form_keys data) <-> In k (map fst data).
Proof. unfold form_keys. rewrite form_keys_in_acc. cbn. tauto. Qed.

Lemma prefix_cons_inv a s1 s2 :
  String.prefix (String a s1) s2 = true ->
  exists s2', s2 = String a s2' /\ String.prefix s1 s2' = true.
Proof.
  destruct s2 as [|b s2']; cbn [String.prefix]; [discriminate|].
  destruct (ascii_dec a b) as [<-|]; [|discriminate].
  intros H. exists s2'. auto.
Qed.

Lemma startswith_qty key :
  startswith key "qty-" = true -> exists pid, key = ("qty-" +++ pid)%string.
Proof.
  unfold startswith. intros H.
  apply prefix_cons_inv in H. destruct H as (k1 & -> & H).
  apply prefix_cons_inv in H. destruct H as (k2 & -> & H).
  apply prefix_cons_inv in H. destruct H as (k3 & -> & H).
  apply prefix_cons_inv in H. destruct H as (pid & -> & _).
  exists pid. reflexivity.
Qed.

Lemma startswith_qty_app pid : startswith ("qty-" +++ pid) "qty-" = true.
Proof. unfold startswith. apply prefix_app. Qed.

Lemma split1_qty pid : split1 "-" ("qty-" +++ pid) = ["qty"%string; pid].
Proof. reflexivity. Qed.

Lemma qty_key_inj a b : ("qty-" +++ a)%string = ("qty-" +++ b)%string -> a = b.
Proof. cbn. intros H. injection H. auto. Qed.

(** The loop of [update_cart] never raises; a key of the form
    [qty-<pid>] sets [pid] when its quantity is positive, and the other
    entries of the cart under construction stay. *)
Lemma update_cart_loop_spec data keys :
  forall acc, exists c',
    update_cart_loop data keys acc = Ok c'
    /\ forall pid,
         dict_get c' pid
         = if (existsb (String.eqb ("qty-" +++ pid)) keys
               && (submitted_qty data ("qty-" +++ pid) >? 0))%bool
           then Some (submitted_qty data ("qty-" +++ pid))
           else dict_get acc pid.
Proof.
  induction keys as [|key rest IH]; intros acc.
  - exists acc. split; [reflexivity|]. intros pid. reflexivity.
  - cbn [update_cart_loop].
    destruct (startswith key "qty-") eqn:Hs.
    + destruct (startswith_qty key Hs) as [kp ->].
      rewrite split1_qty.
      change (match form_get data ("qty-" +++ kp) with
              | Some v => match int (VStr v) with Some q => q | None => 0 end
              | None => 0
              end) with (submitted_qty data ("qty-" +++ kp)).
      destruct (submitted_qty data ("qty-" +++ kp) >? 0) eqn:Hq.
      * destruct (IH (dict_set acc kp (submitted_qty data ("qty-" +++ kp))))
          as (c' & Hc' & Hget).
        exists c'. split; [exact Hc'|]. intros pid. rewrite Hget.
        cbn [existsb].
        destruct (String.eqb_spec ("qty-" +++ pid) ("qty-" +++ kp)) as [E|E].
        -- apply qty_key_inj in E. subst pid. rewrite Hq. cbn [orb andb].
           destruct (existsb _ rest); cbn [andb];
             [reflexivity | apply dict_get_set_same].
        -- cbn [orb].
           destruct (existsb _ rest && _)%bool; [reflexivity|].
           apply dict_get_set_other. intros ->. apply E. reflexivity.
      * destruct (IH acc) as (c' & Hc' & Hget).
        exists c'. split; [exact Hc'|]. intros pid. rewrite Hget.
        cbn [existsb].
        destruct (String.eqb_spec ("qty-" +++ pid) ("qty-" +++ kp)) as [E|E].
        -- apply qty_key_inj in E. subst pid. rewrite Hq. cbn [orb].
           rewrite !andb_false_r. reflexivity.
        -- reflexivity.
    + destruct (IH acc) as (c' & Hc' & Hget).
      exists c'. split; [exact Hc'|]. intros pid. rewrite Hget.
      cbn [existsb].
      destruct (String.eqb_spec ("qty-" +++ pid) key) as [E|E].
      * subst key. rewrite startswith_qty_app in Hs. discriminate.
      * reflexivity.
Qed.

Lemma submitted_qty_positive data key q :
  (submitted_qty data key = q /\ q > 0)
  <-> (exists v, form_get data key = Some v /\ int_of_str v = Some q /\ q > 0).
Proof.
  unfold submitted_qty. split.
  - intros [Hq Hpos]. destruct (form_get data key) as [v|]; [|lia].
    exists v. destruct (int_of_str v) as [q'|]; [|lia]. subst. auto.
  - intros (v & -> & -> & Hpos). auto.
Qed.

(** [update_cart] stores a cart that depends on the form alone: a
    product is in it exactly when the form has the field [qty-<pid>]
    and the first value of the field reads as a positive integer, which
    is then its quantity. *)
Lemma update_cart_spec data :
  exists c',
    (forall w, update_cart data w = (Ok (redirect url_cart), set_cart (Some c') w))
    /\ forall pid q,
         dict_get c' pid = Some q
         <-> exists v, form_get data ("qty-" +++ pid) = Some v
                       /\ int_of_str v = Some q /\ q > 0.
Proof.
  destruct (update_cart_loop_spec data (form_keys data) []) as (c' & Hc' & Hget).
  exists c'. split.
  - intros w. unfold update_cart, bind, lift. rewrite Hc'. reflexivity.
  - intros pid q. rewrite Hget, <- submitted_qty_positive.
    change (dict_get (@nil (string * Z)) pid) with (@None Z).
    destruct (existsb _ _) eqn:Hex; cbn [andb].
    + destruct (Z.gtb_spec (submitted_qty data ("qty-" +++ pid)) 0) as [Hq|Hq].
      * split.
        -- intros H.
           assert (E : submitted_qty data ("qty-" +++ pid) = q) by congruence.
           split; [exact E | lia].
        -- intros [-> _]. reflexivity.
      * split; [discriminate | intros [<- Hpos]; lia].
    + split; [discriminate|]. intros [Hq Hpos]. exfalso.
      assert (Hin : In ("qty-" +++ pid)%string (form_keys data)).
      { apply form_keys_in. unfold submitted_qty in Hq.
        destruct (form_get data ("qty-" +++ pid)) as [v|] eqn:Hv; [|lia].
        apply (dict_get_in data _ v Hv). }
      assert (Hex' : existsb (String.eqb ("qty-" +++ pid)) (form_keys data) = true).
      { apply existsb_exists. eexists. split; [exact Hin | apply String.eqb_refl]. }
      congruence.
Qed.

(** ** Adding to the cart *)

Lemma get_product_int cfg pid :
  get_product cfg (VInt pid) = Ok (find (fun p => p_id p =? pid) (PRODUCTS cfg)).
Proof. apply get_product_in_parsed. reflexivity. Qed.

Lemma add_to_cart_found cfg pid p w :
  get_product cfg (VInt pid) = Ok (Some p) ->
  add_to_cart cfg pid w
  = (Ok (redirect url_index),
     add_flash ("Added " +++ p_name p +++ " to cart", "success"%string)
       (set_cart
          (Some (dict_set (match session_cart w with Some c => c | None => [] end)
                   (str pid) (cart_qty w (str pid) + 1))) w)).
Proof.
  intros Hp. unfold add_to_cart, bind, lift. rewrite Hp.
  unfold session_get_cart, cart_qty. destruct (session_cart w); reflexivity.
Qed.

Lemma add_to_cart_not_found cfg pid w :
  get_product cfg (VInt pid) = Ok None ->
  add_to_cart cfg pid w
  = (Ok (redirect url_index), add_flash ("Product not found", "error")%string w).
Proof. intros Hp. unfold add_to_cart, bind, lift. rewrite Hp. reflexivity. Qed.

Lemma cart_qty_add_same cfg pid p w :
  get_product cfg (VInt pid) = Ok (Some p) ->
  cart_qty (snd (add_to_cart cfg pid w)) (str pid) = cart_qty w (str pid) + 1.
Proof.
  intros Hp. rewrite (add_to_cart_found _ _ _ _ Hp). cbn.
  unfold cart_qty at 1. cbn. unfold dict_get_default.
  rewrite dict_get_set_same. reflexivity.
Qed.

Lemma cart_qty_add_other cfg pid p w k :
  get_product cfg (VInt pid) = Ok (Some p) ->
  k <> str pid ->
  cart_qty (snd (add_to_cart cfg pid w)) k = cart_qty w k.
Proof.
  intros Hp Hk. rewrite (add_to_cart_found _ _ _ _ Hp). cbn.
  unfold cart_qty at 1. cbn. unfold dict_get_default.
  rewrite dict_get_set_other by congruence.
  unfold cart_qty, dict_get_default. destruct (session_cart w); reflexivity.
Qed.

(** ** C8 *)

(** C8. Cart mutations.  Adding a product of the catalog raises its
    quantity by one, counting from 0 when it is not in the cart yet, so
    that two adds in a row give 2, and leaves the other entries alone;
    adding an id that is not in the catalog changes nothing but the
    flashed message.  A quantity update replaces the whole cart by one
    that depends on the form alone: a product is in it exactly when its
    field reads, through [int()], as a positive integer; a value that is
    not numeric, or is zero or negative like ["0"] and ["-3"], leaves
    the product out. *)
Theorem C8_cart_mutations cfg :
  (forall pid p w,
     get_product cfg (VInt pid) = Ok (Some p) ->
     let w1 := snd (add_to_cart cfg pid w) in
     let w2 := snd (add_to_cart cfg pid w1) in
     fst (add_to_cart cfg pid w) = Ok (redirect url_index)
     /\ cart_qty w1 (str pid) = cart_qty w (str pid) + 1
     /\ cart_qty w2 (str pid) = cart_qty w (str pid) + 2
     /\ (cart_qty w (str pid) = 0 -> cart_qty w2 (str pid) = 2)
     /\ (forall k, k <> str pid -> cart_qty w1 k = cart_qty w k)
     /\ orders w1 = orders w)
  /\ (forall pid w,
        get_product cfg (VInt pid) = Ok None ->
        add_to_cart cfg pid w
        = (Ok (redirect url_index),
           add_flash ("Product not found", "error")%string w)
        /\ session_cart (snd (add_to_cart cfg pid w)) = session_cart w)
  /\ (forall data, exists c',
        (forall w, update_cart data w
                   = (Ok (redirect url_cart), set_cart (Some c') w))
        /\ (forall pid q,
              dict_get c' pid = Some q
              <-> exists v, form_get data ("qty-" +++ pid) = Some v
                            /\ int_of_str v = Some q /\ q > 0)
        /\ (forall pid v,
              form_get data ("qty-" +++ pid) = Some v ->
              int_of_str v = None
              \/ (exists q, int_of_str v = Some q /\ q <= 0) ->
              dict_get c' pid = None))
  /\ int_of_str "0" = Some 0 /\ int_of_str "-3" = Some (-3).
Proof.
  split; [|split; [|split; [|split; reflexivity]]].
  - intros pid p w Hp w1 w2. subst w1 w2.
    pose proof (cart_qty_add_same cfg pid p w Hp) as H1.
    pose proof (cart_qty_add_same cfg pid p (snd (add_to_cart cfg pid w)) Hp) as H2.
    split; [rewrite (add_to_cart_found _ _ _ _ Hp); reflexivity|].
    split; [exact H1|]. split; [lia|]. split; [lia|].
    split; [intros k Hk; apply (cart_qty_add_other cfg pid p w k Hp Hk)|].
    rewrite (add_to_cart_found _ _ _ _ Hp). reflexivity.
  - intros pid w Hp. rewrite (add_to_cart_not_found _ _ _ Hp). split; reflexivity.
  - intros data. destruct (update_cart_spec data) as (c' & Hrun & Hget).
    exists c'. split; [exact Hrun|]. split; [exact Hget|].
    intros pid v Hv Hbad.
    destruct (dict_get c' pid) as [q|] eqn:Hq; [|reflexivity].
    exfalso. apply Hget in Hq. destruct Hq as (v' & Hv' & Hint & Hpos).
    rewrite Hv in Hv'. injection Hv' as <-.
    destruct Hbad as [Hnone | (q' & Hq' & Hle)]; [congruence|].
    rewrite Hint in Hq'. injection Hq' as <-. lia.
Qed.

Lemma C8_witness :
  cart_qty (snd (add_to_cart demo_cfg 1 (snd (add_to_cart demo_cfg 1 init_world))))
    (str 1) = 2.
Proof.
  destruct (C8_cart_mutations demo_cfg) as [Hadd _].
  destruct (Hadd 1 {| p_id := 1; p_name := "Rocket"; p_price := 10 |} init_world)
    as (_ & _ & _ & H2 & _).
  - reflexivity.
  - apply H2. reflexivity.
Defined.

Example update_cart_example :
  session_cart
    (snd (update_cart
            [("qty-1", "3"); ("qty-2", "0"); ("qty-3", "-3"); ("qty-4", "many");
             ("csrf", "x"); ("qty-5", " 2 ")]%string
            (with_cart [("9", 1)]%string)))
  = Some [("1", 3); ("5", 2)]%string.
Proof. reflexivity. Qed.

(** ** C9 *)

(** C9, as stated, fails on an empty catalog: [get_product] then returns
    [None] for a key that is no integer without ever calling [int()], and
    the cart page and the checkout drop the entry instead of raising. *)
Lemma C9_counterexample_empty_catalog :
  int_of_str "abc" = None
  /\ get_product empty_cfg (VStr "abc") = Ok None
  /\ let w := snd (update_cart [("qty-abc", "2")]%string init_world) in
     session_cart w = Some [("abc", 2)]%string
     /\ cart empty_cfg w = (Ok (Render (CartPage [] 0)), w)
     /\ checkout empty_cfg demo_svc false [] w
        = (Ok (Render (CheckoutPage [] 0)), w).
Proof. vm_compute. repeat split. Qed.

(** C9, amended. Product lookup is partial: whenever the catalog has at
    least one product, [get_product] raises [ValueError] on every string
    that [int()] refuses.  The quantity-update route stores the suffix of
    a [qty-] field as a cart key without looking at it, so a field
    [qty-<s>] with a positive quantity puts the key [s] in the cart, and
    with such a key in the cart the cart page and the checkout, GET or
    POST, raise and leave the state as it is. *)
Theorem C9_non_integer_key_raises cfg svc s :
  PRODUCTS cfg <> [] ->
  int_of_str s = None ->
  get_product cfg (VStr s) = Raise ValueError
  /\ (forall data v q w,
        form_get data ("qty-" +++ s) = Some v ->
        int_of_str v = Some q -> q > 0 ->
        exists c, snd (update_cart data w) = set_cart (Some c) w
                  /\ dict_get c s = Some q)
  /\ (forall w c,
        session_cart w = Some c -> In s (dict_keys c) ->
        cart cfg w = (Raise ValueError, w)
        /\ forall post data, checkout cfg svc post data w = (Raise ValueError, w)).
Proof.
  intros Hne Hs. split; [|split].
  - apply (get_product_in_unparsed _ (VStr s) Hs Hne).
  - intros data v q w Hv Hq Hpos.
    destruct (update_cart_spec data) as (c & Hrun & Hget).
    exists c. rewrite Hrun. split; [reflexivity|].
    apply Hget. exists v. auto.
  - intros w c Hc Hin.
    assert (Hbad : exists pid, In pid (dict_keys c) /\ int_of_str pid = None)
      by (exists s; auto).
    split.
    + unfold cart, bind, session_get_cart, lift. rewrite Hc.
      rewrite (cart_loop_raises cfg c Hne Hbad). reflexivity.
    + intros post data. apply (checkout_raises cfg svc post data w c); auto.
      * intros ->. destruct Hin.
      * apply (checkout_loop_raises cfg c Hne Hbad).
Qed.

Lemma C9_witness :
  get_product demo_cfg (VStr "abc") = Raise ValueError
  /\ cart demo_cfg (with_cart [("1", 1); ("abc", 2)]%string)
     = (Raise ValueError, with_cart [("1", 1); ("abc", 2)]%string).
Proof.
  destruct (C9_non_integer_key_raises demo_cfg demo_svc "abc") as (Hg & _ & Hc).
  - discriminate.
  - reflexivity.
  - split; [exact Hg|].
    apply (Hc (with_cart [("1", 1); ("abc", 2)]%string) [("1", 1); ("abc", 2)]%string).
    + reflexivity.
    + right. left. reflexivity.
Defined.

(** ** C4 *)

Lemma valid_form_missing data : valid_form data = true <-> missing_fields data = [].
Proof.
  unfold valid_form, missing_fields.
  destruct (truthy (form_get data "name")), (truthy (form_get data "phone"));
    cbn; split; intros H; try reflexivity; discriminate.
Qed.

(** C4, as stated, fails in its last part: the validation error is one
    fixed message.  A submission without a name and one without a phone
    miss different fields and get the same response and the same
    message. *)
Lemma C4_counterexample_generic_message :
  let w := with_cart [("1", 2)]%string in
  let no_name := [("name", EmptyString); ("phone", "123")]%string in
  let no_phone := [("name", "A")]%string in
  missing_fields no_name = ["name"%string]
  /\ missing_fields no_phone = ["phone"%string]
  /\ checkout demo_cfg demo_svc true no_name w
     = checkout demo_cfg demo_svc true no_phone w
  /\ session_flashes (snd (checkout demo_cfg demo_svc true no_name w))
     = [("Please enter name and phone", "error")]%string.
Proof. vm_compute. repeat split. Qed.

(** C4, amended. A checkout submission with an empty (or absent) name or
    phone creates no order and leaves the cart unchanged; when the cart
    is not empty and its items are derived, the visitor is sent back to
    the checkout page with the one message [Please enter name and phone],
    whichever of the two fields is missing. *)
Theorem C4_validation_failure cfg svc data w :
  missing_fields data <> [] ->
  let r := checkout cfg svc true data w in
  orders (snd r) = orders w
  /\ orders_seq (snd r) = orders_seq w
  /\ session_cart (snd r) = session_cart w
  /\ trace (snd r) = trace w
  /\ (forall c items total,
        session_cart w = Some c -> c <> [] ->
        checkout_loop cfg c [] 0 = Ok (items, total) ->
        r = (Ok (redirect url_checkout),
             add_flash ("Please enter name and phone", "error")%string w)).
Proof.
  intros Hm r. subst r.
  assert (Hv : valid_form data = false).
  { destruct (valid_form data) eqn:E; [|reflexivity].
    apply valid_form_missing in E. contradiction. }
  destruct (checkout_post_cases cfg svc data w)
    as [(Ho & Hc & Hs & Ht) | (c & items & total & rest & _ & _ & _ & Hv' & _)].
  - repeat split; auto.
    intros c items total Hc' Hne Hl. apply (checkout_invalid cfg svc data w c items total); auto.
  - congruence.
Qed.

Lemma C4_witness :
  let w := with_cart [("1", 2)]%string in
  let r := checkout demo_cfg demo_svc true [("name", "A")]%string w in
  orders (snd r) = orders w
  /\ orders_seq (snd r) = orders_seq w
  /\ session_cart (snd r) = session_cart w
  /\ trace (snd r) = trace w
  /\ (forall c items total,
        session_cart w = Some c -> c <> [] ->
        checkout_loop demo_cfg c [] 0 = Ok (items, total) ->
        r = (Ok (redirect url_checkout),
             add_flash ("Please enter name and phone", "error")%string w)).
Proof.
  apply (C4_validation_failure demo_cfg demo_svc [("name", "A")]%string
           (with_cart [("1", 2)]%string)).
  discriminate.
Defined.

(** ** The payment-session request *)

Lemma append_assoc (a b c : string) : (a +++ b) +++ c = a +++ b +++ c.
Proof. induction a; cbn; congruence. Qed.

Lemma success_url_eq cfg items order_id :
  sr_success_url (stripe_request_of cfg items order_id)
  = url_root cfg +++ "/success?order_id=" +++ str order_id.
Proof. cbn. rewrite append_assoc. reflexivity. Qed.

Example stripe_request_example :
  stripe_request_of demo_cfg two_items 1
  = {| sr_payment_method_types := ["card"%string];
       sr_line_items :=
         [ {| sl_currency := "inr"; sl_product_name := "Rocket";
              sl_unit_amount := 1000; sl_quantity := 2 |};
           {| sl_currency := "inr"; sl_product_name := "Sparkler";
              sl_unit_amount := 2500; sl_quantity := 1 |} ];
       sr_mode := "payment";
       sr_success_url := "http://localhost:5000/success?order_id=1";
       sr_cancel_url := "http://localhost:5000/checkout" |}.
Proof. reflexivity. Qed.

(* ------------------------------------------------------------------ *)
(** ** [json.loads] reads back what [json.dumps] wrote *)

Module JsonFacts.

Import Json.

Lemma closes_digit rest :
  closes rest ->
  match rest with
  | String c _ => digit_of_ascii c = None
  | EmptyString => True
  end.
Proof. intros (c & r & -> & [-> | [-> | ->]]); reflexivity. Qed.

Lemma closes_float rest : closes rest -> starts_float_tail rest = false.
Proof. intros (c & r & -> & [-> | [-> | ->]]); reflexivity. Qed.

Lemma closes_skip_ws rest : closes rest -> skip_ws rest = rest.
Proof. intros (c & r & -> & [-> | [-> | ->]]); reflexivity. Qed.

Lemma read_digits_uint d rest :
  match rest with
  | String c _ => digit_of_ascii c = None
  | EmptyString => True
  end ->
  read_digits (NilEmpty.string_of_uint d +++ rest) = (d, rest).
Proof.
  intros Hrest. induction d; cbn; try (rewrite IHd; reflexivity).
  destruct rest as [|c r]; cbn; [reflexivity|]. rewrite Hrest. reflexivity.
Qed.

Lemma canonical_to_uint p : canonical (Pos.to_uint p).
Proof.
  split; [apply DecimalPos.Unsigned.to_uint_nonnil|].
  intros d' E.
  pose proof (DecimalPos.Unsigned.to_of (Pos.to_uint p)) as H.
  rewrite DecimalPos.Unsigned.of_to in H. cbn [N.to_uint] in H.
  rewrite E in H. unfold unorm in H.
  destruct (nzhead (D0 d')) eqn:Hz;
    try (exfalso; apply (DecimalFacts.nzhead_nonzero (D0 d') d'); congruence);
    try discriminate.
  injection H as <-. reflexivity.
Qed.

Lemma scan_number_pos d rest :
  canonical d -> closes rest ->
  scan_number (NilEmpty.string_of_uint d +++ rest) = Some (Z.of_int (Pos d), rest).
Proof.
  intros [Hnil Hzero] Hc. unfold scan_number.
  assert (Hsign : match NilEmpty.string_of_uint d +++ rest with
                  | String "-" r => (true, r)
                  | _ => (false, NilEmpty.string_of_uint d +++ rest)
                  end = (false, NilEmpty.string_of_uint d +++ rest)).
  { destruct d; try reflexivity. congruence. }
  rewrite Hsign, (read_digits_uint d rest (closes_digit rest Hc)).
  rewrite (closes_float rest Hc).
  destruct d as [|d'|d'|d'|d'|d'|d'|d'|d'|d'|d']; try reflexivity; [congruence|].
  rewrite (Hzero d' eq_refl). reflexivity.
Qed.

Lemma scan_number_neg d rest :
  canonical d -> closes rest ->
  scan_number (String "-" (NilEmpty.string_of_uint d +++ rest))
  = Some (Z.of_int (Neg d), rest).
Proof.
  intros [Hnil Hzero] Hc. unfold scan_number.
  rewrite (read_digits_uint d rest (closes_digit rest Hc)).
  rewrite (closes_float rest Hc).
  destruct d as [|d'|d'|d'|d'|d'|d'|d'|d'|d'|d']; try reflexivity; [congruence|].
  rewrite (Hzero d' eq_refl). reflexivity.
Qed.

(** The numeral [str] prints: a sign and a canonical digit string. *)
Lemma str_shape n :
  exists d, canonical d
            /\ ((str n = NilEmpty.string_of_uint d /\ n = Z.of_int (Pos d))
                \/ (str n = String "-" (NilEmpty.string_of_uint d)
                    /\ n = Z.of_int (Neg d))).
Proof.
  unfold str. destruct n as [|p|p].
  - exists (D0 Nil). split; [split; [discriminate | intros d' [= <-]; reflexivity]|].
    left. split; reflexivity.
  - exists (Pos.to_uint p). split; [apply canonical_to_uint|]. left.
    pose proof (DecimalPos.Unsigned.to_uint_nonnil p) as Hn.
    split; [|symmetry; apply (DecimalZ.of_to (Z.pos p))].
    cbn. unfold NilZero.string_of_uint. destruct (Pos.to_uint p); congruence.
  - exists (Pos.to_uint p). split; [apply canonical_to_uint|]. right.
    pose proof (DecimalPos.Unsigned.to_uint_nonnil p) as Hn.
    split; [|symmetry; apply (DecimalZ.of_to (Z.neg p))].
    cbn. unfold NilZero.string_of_uint. destruct (Pos.to_uint p); congruence.
Qed.

Lemma scan_number_str n rest :
  closes rest -> scan_number (str n +++ rest) = Some (n, rest).
Proof.
  intros Hc. destruct (str_shape n) as (d & Hd & [[-> ->] | [-> ->]]).
  - apply scan_number_pos; assumption.
  - apply (scan_number_neg d rest); assumption.
Qed.

Lemma scanstring_escape_char c rest :
  scanstring (escape_char c +++ rest) = cons_fst c (scanstring rest).
Proof.
  destruct c as [[|] [|] [|] [|] [|] [|] [|] [|]]; reflexivity.
Qed.

Lemma scanstring_escape s rest :
  scanstring (escape s +++ quote +++ rest) = Some (s, rest).
Proof.
  induction s as [|c s IH]; cbn [escape].
  - reflexivity.
  - rewrite append_assoc, scanstring_escape_char, IH. reflexivity.
Qed.

Lemma dumps_str_cons s rest :
  dumps_str s +++ rest = String dquote (escape s +++ quote +++ rest).
Proof. unfold dumps_str, quote, chr. cbn. rewrite append_assoc. reflexivity. Qed.

(** A string literal is read back, with any fuel. *)
Lemma scan_value_str n s rest :
  scan_value (S n) (dumps_str s +++ rest) = Some (Str s, rest).
Proof.
  rewrite dumps_str_cons. cbn [scan_value].
  change (Ascii.eqb dquote dquote) with true. cbv iota.
  rewrite scanstring_escape. reflexivity.
Qed.

(** The first character of a numeral is a digit or the minus sign. *)
Lemma str_head n :
  exists c r, str n = String c r
              /\ (c = "-" \/ c = "0" \/ c = "1" \/ c = "2" \/ c = "3" \/ c = "4"
                  \/ c = "5" \/ c = "6" \/ c = "7" \/ c = "8" \/ c = "9")%char.
Proof.
  destruct (str_shape n) as (d & [Hnil _] & [[-> _] | [-> _]]).
  - destruct d; try congruence; cbn; do 2 eexists; (split; [reflexivity|]); tauto.
  - do 2 eexists. split; [reflexivity|]. tauto.
Qed.

(** An integer is read back, with any fuel, when a separator or a
    closing bracket follows. *)
Lemma scan_value_int n z rest :
  closes rest -> scan_value (S n) (str z +++ rest) = Some (Int z, rest).
Proof.
  intros Hc. pose proof (scan_number_str z rest Hc) as Hn.
  destruct (str_head z) as (c & r & E & Hhead). rewrite E in *.
  cbn [String.append] in *. cbn [scan_value]. rewrite Hn.
  destruct Hhead as [-> | [-> | [-> | [-> | [-> | [-> | [-> | [-> | [-> | [-> | ->]]]]]]]]]];
    reflexivity.
Qed.

Lemma dumps_dict d : dumps (Dict d) = "{" +++ join ", " (map member d) +++ "}".
Proof. reflexivity. Qed.

Lemma dumps_list l : dumps (List l) = "[" +++ join ", " (map dumps l) +++ "]".
Proof. reflexivity. Qed.

Lemma scan_value_simple n v rest :
  simple v -> closes rest ->
  scan_value (S n) (dumps v +++ rest) = Some (v, rest).
Proof.
  intros Hv Hc. destruct v; try contradiction.
  - apply scan_value_int, Hc.
  - apply scan_value_str.
Qed.

Lemma skip_ws_simple v rest :
  simple v -> skip_ws (dumps v +++ rest) = dumps v +++ rest.
Proof.
  intros Hv. destruct v as [| |z|s| |]; try contradiction.
  - cbn [dumps]. destruct (str_head z) as (c & r & -> & Hhead).
    destruct Hhead as [-> | [-> | [-> | [-> | [-> | [-> | [-> | [-> | [-> | [-> | ->]]]]]]]]]];
      reflexivity.
  - cbn [dumps]. rewrite dumps_str_cons. reflexivity.
Qed.

Lemma skip_ws_member kv rest : skip_ws (member kv +++ rest) = member kv +++ rest.
Proof. unfold member. rewrite !append_assoc, dumps_str_cons. reflexivity. Qed.

(** One member of an object, then what follows it. *)
Lemma scan_members_step n k v rest acc :
  simple v -> closes rest ->
  scan_members (S (S n)) (member (k, v) +++ rest) acc
  = match rest with
    | String "," r4 => scan_members (S n) (skip_ws r4) (dict_set acc k v)
    | String "}" r4 => Some (Dict (dict_set acc k v), r4)
    | _ => None
    end.
Proof.
  intros Hv Hc. unfold member. cbn [fst snd].
  rewrite !append_assoc, dumps_str_cons.
  cbn [scan_members]. change (Ascii.eqb dquote dquote) with true. cbv iota.
  rewrite scanstring_escape.
  change (skip_ws (": " +++ dumps v +++ rest))
    with (String ":" (String " " (dumps v +++ rest))).
  cbv iota.
  change (skip_ws (String " " (dumps v +++ rest))) with (skip_ws (dumps v +++ rest)).
  rewrite (skip_ws_simple v rest Hv), (scan_value_simple n v rest Hv Hc).
  rewrite (closes_skip_ws rest Hc). reflexivity.
Qed.

Lemma scan_members_all d :
  forall n acc rest,
    d <> [] -> Forall (fun kv => simple (snd kv)) d ->
    scan_members (List.length d + S n) (join ", " (map member d) +++ "}" +++ rest) acc
    = Some (Dict (fold_left (fun a kv => dict_set a (fst kv) (snd kv)) d acc), rest).
Proof.
  induction d as [|[k v] d IH]; intros n acc rest Hne Hs; [congruence|].
  inversion Hs as [|? ? Hv Hd]; subst. cbn [snd] in Hv.
  destruct d as [|kv2 d'].
  - cbn [map join List.length Nat.add fold_left fst snd].
    rewrite (scan_members_step n k v ("}" +++ rest) acc Hv).
    + reflexivity.
    + do 2 eexists. split; [reflexivity | tauto].
  - change (join ", " (map member ((k, v) :: kv2 :: d')))
      with (member (k, v) +++ ", " +++ join ", " (map member (kv2 :: d'))).
    rewrite !append_assoc.
    change (List.length ((k, v) :: kv2 :: d') + S n)%nat
      with (S (S (List.length d' + S n))).
    rewrite (scan_members_step _ k v _ acc Hv).
    + change (", " +++ join ", " (map member (kv2 :: d')) +++ "}" +++ rest)
        with (String "," (String " " (join ", " (map member (kv2 :: d')) +++ "}" +++ rest))).
      cbv iota.
      change (skip_ws (String " " (join ", " (map member (kv2 :: d')) +++ "}" +++ rest)))
        with (skip_ws (join ", " (map member (kv2 :: d')) +++ "}" +++ rest)).
      assert (Hsk : skip_ws (join ", " (map member (kv2 :: d')) +++ "}" +++ rest)
                    = join ", " (map member (kv2 :: d')) +++ "}" +++ rest).
      { destruct d'; cbn [map join]; rewrite ?append_assoc; apply skip_ws_member. }
      rewrite Hsk.
      apply (IH n (dict_set acc k v) rest); [discriminate | assumption].
    + do 2 eexists. split; [reflexivity | tauto].
Qed.

Lemma scan_value_object n r :
  scan_value (S n) (String "{" (String dquote r)) = scan_members n (String dquote r) [].
Proof. reflexivity. Qed.

Lemma scan_value_array n r :
  scan_value (S n) (String "[" (String "{" r)) = scan_array n (String "{" r) [].
Proof. reflexivity. Qed.

(** The object of a checkout item is read back, given fuel 6. *)
Lemma scan_value_item m it rest :
  (6 <= m)%nat -> closes rest ->
  scan_value m (dumps (item_value it) +++ rest) = Some (item_value it, rest).
Proof.
  intros Hm Hc. replace m with (S (4 + S (m - 6)))%nat by lia.
  set (d := [("id"%string, Int (li_id it)); ("name"%string, Str (li_name it));
             ("price"%string, Int (li_price it)); ("qty"%string, Int (li_qty it))]).
  change (item_value it) with (Dict d).
  rewrite dumps_dict, !append_assoc.
  change ("{" +++ join ", " (map member d) +++ "}" +++ rest)
    with (String "{" (join ", " (map member d) +++ "}" +++ rest)).
  assert (Hhd : exists r, join ", " (map member d) +++ "}" +++ rest = String dquote r).
  { subst d. cbn [map join]. rewrite ?append_assoc. unfold member at 1.
    rewrite ?append_assoc, dumps_str_cons. eexists. reflexivity. }
  destruct Hhd as [r Hr].
  pose proof (scan_members_all d (m - 6) [] rest) as Hall.
  rewrite Hr, scan_value_object, <- Hr.
  change (4 + S (m - 6))%nat with (List.length d + S (m - 6))%nat.
  rewrite Hall.
  - reflexivity.
  - discriminate.
  - subst d. repeat constructor.
Qed.

Lemma item_head it rest : exists r, dumps (item_value it) +++ rest = String "{" r.
Proof.
  unfold item_value. rewrite dumps_dict, !append_assoc. eexists. reflexivity.
Qed.

Lemma join_items_head it items rest :
  exists r,
    join ", " (map dumps (map item_value (it :: items))) +++ rest = String "{" r.
Proof.
  destruct items; cbn [map join]; rewrite ?append_assoc; apply item_head.
Qed.

(** The elements of a non-empty list of checkout items, up to the
    closing bracket. *)
Lemma scan_array_items items :
  forall n acc rest,
    items <> [] ->
    scan_array (List.length items + (6 + n))
      (join ", " (map dumps (map item_value items)) +++ "]" +++ rest) acc
    = Some (List (acc ++ map item_value items), rest).
Proof.
  induction items as [|it items IH]; intros n acc rest Hne; [congruence|].
  destruct items as [|it2 items'].
  - cbn [map join]. change (List.length [it] + (6 + n))%nat with (S (6 + n)).
    cbn [scan_array]. rewrite scan_value_item.
    + reflexivity.
    + lia.
    + do 2 eexists. split; [reflexivity | tauto].
  - change (join ", " (map dumps (map item_value (it :: it2 :: items'))))
      with (dumps (item_value it) +++ ", "
            +++ join ", " (map dumps (map item_value (it2 :: items')))).
    rewrite !append_assoc.
    change (List.length (it :: it2 :: items') + (6 + n))%nat
      with (S (List.length (it2 :: items') + (6 + n))).
    cbn [scan_array]. rewrite scan_value_item.
    + change (", " +++ join ", " (map dumps (map item_value (it2 :: items'))) +++ "]" +++ rest)
        with (String "," (String " "
                (join ", " (map dumps (map item_value (it2 :: items'))) +++ "]" +++ rest))).
      destruct (join_items_head it2 items' ("]" +++ rest)) as [r Hr].
      rewrite Hr.
      change (skip_ws (String "," (String " " (String "{" r))))
        with (String "," (String " " (String "{" r))).
      cbv iota.
      change (skip_ws (String " " (String "{" r))) with (String "{" r).
      rewrite <- Hr.
      rewrite (IH n (acc ++ [item_value it]) rest) by discriminate.
      rewrite <- app_assoc. reflexivity.
    + cbn [List.length]. lia.
    + do 2 eexists. split; [reflexivity | tauto].
Qed.

Lemma length_append (a b : string) :
  String.length (a +++ b) = (String.length a + String.length b)%nat.
Proof. induction a; cbn; congruence. Qed.

Lemma length_item it : (5 <= String.length (dumps (item_value it)))%nat.
Proof.
  unfold item_value. rewrite dumps_dict. cbn [map join]. unfold member at 1.
  cbn [fst snd]. rewrite !length_append.
  change (String.length (dumps_str "id")) with 4%nat.
  change (String.length "{") with 1%nat. lia.
Qed.

Lemma length_join_items items :
  (5 * List.length items
   <= String.length (join ", " (map dumps (map item_value items))))%nat.
Proof.
  induction items as [|it items IH]; [cbn; lia|].
  pose proof (length_item it) as Hit.
  destruct items as [|it2 items'].
  - cbn [map join List.length]. lia.
  - change (join ", " (map dumps (map item_value (it :: it2 :: items'))))
      with (dumps (item_value it) +++ ", "
            +++ join ", " (map dumps (map item_value (it2 :: items')))).
    rewrite !length_append. cbn [List.length] in *. lia.
Qed.

(** [json.loads(json.dumps(items))] is [items], for every list of
    checkout items. *)
Lemma loads_dumps_items items :
  loads (dumps (items_value items)) = Some (items_value items).
Proof.
  destruct items as [|it items]; [reflexivity|].
  unfold loads, items_value. rewrite dumps_list.
  set (J := join ", " (map dumps (map item_value (it :: items)))).
  change ("[" +++ J +++ "]") with (String "[" (J +++ "]")).
  change (skip_ws (String "[" (J +++ "]"))) with (String "[" (J +++ "]")).
  destruct (join_items_head it items "]") as [r Hr]. fold J in Hr.
  rewrite Hr, scan_value_array, <- Hr.
  pose proof (length_join_items (it :: items)) as Hlen. fold J in Hlen.
  assert (Hfuel : String.length (String "[" (J +++ "]"))
                  = (List.length (it :: items)
                     + (6 + (String.length J - List.length (it :: items) - 4)))%nat).
  { cbn [String.length]. rewrite length_append.
    cbn [String.length List.length] in *. lia. }
  rewrite Hfuel. rewrite <- (append_empty_r (J +++ "]")), append_assoc.
  subst J. rewrite scan_array_items by discriminate.
  reflexivity.
Qed.

End JsonFacts.

(** ** C5 *)

(** The text of an order id does not occur in the checkout URL. *)
Lemma contains_str_checkout n : contains (str n) "/checkout" = false.
Proof.
  destruct (JsonFacts.str_head n) as (c & r & -> & H).
  destruct H as [-> | [-> | [-> | [-> | [-> | [-> | [-> | [-> | [-> | [-> | ->]]]]]]]]]];
    reflexivity.
Qed.

(** C5, as stated, fails in its last part: when the provider refuses the
    session, the response is a redirect to [/checkout] with the
    provider's message; the id of the order just created, 1 here, is
    nowhere in it. *)
Lemma C5_counterexample_no_order_id_in_response :
  let w := with_cart [("1", 2); ("2", 1)]%string in
  let r := checkout demo_cfg declined_svc true stripe_form w in
  map r_id (orders (snd r)) = [1]
  /\ fst r = Ok (Redirect "/checkout" 302)
  /\ session_flashes (snd r)
     = [("Payment processing error: Your card was declined.", "error")]%string
  /\ response_mentions (str 1) (fst r) (session_flashes (snd r)) = false.
Proof. vm_compute. repeat split. Qed.

(** C5, amended. When the payment-session request fails after the order
    was persisted, the order stays in the table with paid 0, the cart
    stays cleared, and the visitor is sent back to the checkout page with
    one new message, [Payment processing error: ] followed by the
    provider's text.  The request that was sent, the last effect of the
    run, carries the order id in its success URL; the redirect and the
    new message mention the id exactly when the provider's text makes the
    message do so. *)
Theorem C5_payment_failure_keeps_order cfg svc data w c items total e :
  session_cart w = Some c -> c <> [] ->
  checkout_loop cfg c [] 0 = Ok (items, total) ->
  valid_form data = true ->
  sqlite_error svc = None ->
  fits_int64 total = true ->
  wants_stripe cfg data = true ->
  stripe_create svc (stripe_request_of cfg items (orders_seq w + 1)) = StripeError e ->
  let r := checkout cfg svc true data w in
  let message := "Payment processing error: " +++ e in
  fst r = Ok (Redirect "/checkout" 302)
  /\ session_flashes (snd r) = session_flashes w ++ [(message, "error"%string)]
  /\ session_cart (snd r) = None
  /\ exists row pre rq,
       orders (snd r) = orders w ++ [row]
       /\ r_id row = orders_seq w + 1 /\ r_paid row = 0
       /\ r_items row = Json.dumps (items_value items)
       /\ trace (snd r) = trace w ++ pre ++ [EvStripe rq (StripeError e)]
       /\ forallb (fun ev => negb (is_stripe_event ev)) pre = true
       /\ sr_success_url rq
          = url_root cfg +++ "/success?order_id=" +++ str (r_id row)
       /\ response_mentions (str (r_id row)) (fst r) [(message, "error"%string)]
          = contains (str (r_id row)) message.
Proof.
  intros Hc Hne Hl Hv He Hfit Hs Hfail r message. subst r message.
  rewrite (checkout_persisted _ _ _ _ _ _ _ Hc Hne Hl Hv He Hfit). cbn zeta.
  rewrite Hs, Hfail. cbn [fst snd].
  split; [reflexivity|].
  split; [cbn; rewrite notified_world_flashes; reflexivity|].
  split; [cbn; apply notified_world_cart|].
  destruct (notified_world_trace cfg svc w data items total) as (rest & Ht & _ & Hns).
  exists (new_row w data items total),
         (EvInsert (new_row w data items total) :: EvCartPopped :: rest),
         (stripe_request_of cfg items (orders_seq w + 1)).
  split; [cbn; apply notified_world_orders|].
  split; [reflexivity|]. split; [reflexivity|]. split; [reflexivity|].
  split; [cbn; rewrite Ht, <- app_assoc; reflexivity|].
  split; [exact Hns|].
  split; [apply success_url_eq|].
  unfold response_mentions, redirect, url_checkout. cbn [existsb fst].
  rewrite contains_str_checkout, orb_false_r. reflexivity.
Qed.

Lemma C5_witness :
  let w := with_cart [("1", 2); ("2", 1)]%string in
  let r := checkout demo_cfg declined_svc true stripe_form w in
  let message := ("Payment processing error: " +++ "Your card was declined.")%string in
  fst r = Ok (Redirect "/checkout" 302)
  /\ session_flashes (snd r) = session_flashes w ++ [(message, "error"%string)]
  /\ session_cart (snd r) = None
  /\ exists row pre rq,
       orders (snd r) = orders w ++ [row]
       /\ r_id row = orders_seq w + 1 /\ r_paid row = 0
       /\ r_items row = Json.dumps (items_value two_items)
       /\ trace (snd r) = trace w ++ pre
                          ++ [EvStripe rq (StripeError "Your card was declined.")]
       /\ forallb (fun ev => negb (is_stripe_event ev)) pre = true
       /\ sr_success_url rq
          = url_root demo_cfg +++ "/success?order_id=" +++ str (r_id row)
       /\ response_mentions (str (r_id row)) (fst r) [(message, "error"%string)]
          = contains (str (r_id row)) message.
Proof.
  apply (C5_payment_failure_keeps_order demo_cfg declined_svc stripe_form
           (with_cart [("1", 2); ("2", 1)]%string) [("1", 2); ("2", 1)]%string
           two_items 45 "Your card was declined.").
  - reflexivity.
  - discriminate.
  - reflexivity.
  - reflexivity.
  - reflexivity.
  - reflexivity.
  - reflexivity.
  - reflexivity.
Defined.

(** A provider whose error text quotes the order id puts the id into the
    message the visitor sees. *)
Example payment_error_quoting_the_id :
  let svc := {| sqlite_error := None; smtp_sends := fun _ => true;
                stripe_create := fun rq => StripeError (sr_success_url rq) |} in
  let r := checkout demo_cfg svc true stripe_form
             (with_cart [("1", 2); ("2", 1)]%string) in
  session_flashes (snd r)
  = [("Payment processing error: http://localhost:5000/success?order_id=1",
      "error")]%string
  /\ response_mentions (str 1) (fst r) (session_flashes (snd r)) = true.
Proof. vm_compute. repeat split. Qed.

(** ** C6 *)

(** On a catalog of [int] prices the checkout sends exactly one
    payment-session request; it has one line per line item, in order,
    with the product name, the quantity, the currency [inr] and the price
    times 100 as unit amount, the mode [payment], a success URL that
    carries the id of the new order and a cancel URL that is the checkout
    page. *)
Lemma payment_session_request cfg svc data w c items total :
  session_cart w = Some c -> c <> [] ->
  checkout_loop cfg c [] 0 = Ok (items, total) ->
  valid_form data = true ->
  sqlite_error svc = None ->
  fits_int64 total = true ->
  wants_stripe cfg data = true ->
  let w' := snd (checkout cfg svc true data w) in
  exists rq res pre row,
    trace w' = trace w ++ pre ++ [EvStripe rq res]
    /\ forallb (fun e => negb (is_stripe_event e)) pre = true
    /\ orders w' = orders w ++ [row]
    /\ sr_line_items rq
       = map (fun it => {| sl_currency := "inr"; sl_product_name := li_name it;
                           sl_unit_amount := li_price it * 100;
                           sl_quantity := li_qty it |}) items
    /\ List.length (sr_line_items rq) = List.length items
    /\ sr_payment_method_types rq = ["card"%string]
    /\ sr_mode rq = "payment"%string
    /\ sr_success_url rq = url_root cfg +++ "/success?order_id=" +++ str (r_id row)
    /\ sr_cancel_url rq = url_root cfg +++ "/checkout".
Proof.
  intros Hc Hne Hl Hv He Hfit Hs w'. subst w'.
  rewrite (checkout_persisted _ _ _ _ _ _ _ Hc Hne Hl Hv He Hfit). cbn zeta.
  rewrite Hs.
  destruct (notified_world_trace cfg svc w data items total) as (rest & Ht & _ & Hns).
  exists (stripe_request_of cfg items (orders_seq w + 1)),
         (stripe_create svc (stripe_request_of cfg items (orders_seq w + 1))),
         (EvInsert (new_row w data items total) :: EvCartPopped :: rest),
         (new_row w data items total).
  assert (Hw : trace (snd (let rq := stripe_request_of cfg items (orders_seq w + 1) in
                           match stripe_create svc rq with
                           | StripeSession url =>
                               (Ok (Redirect url 303),
                                log (EvStripe rq (stripe_create svc rq))
                                  (notified_world cfg svc w data items total))
                           | StripeError e =>
                               (Ok (redirect url_checkout),
                                add_flash ("Payment processing error: " +++ e, "error"%string)
                                  (log (EvStripe rq (stripe_create svc rq))
                                     (notified_world cfg svc w data items total)))
                           end))
               = trace (notified_world cfg svc w data items total)
                 ++ [EvStripe (stripe_request_of cfg items (orders_seq w + 1))
                       (stripe_create svc (stripe_request_of cfg items (orders_seq w + 1)))]
               /\ orders (snd (let rq := stripe_request_of cfg items (orders_seq w + 1) in
                           match stripe_create svc rq with
                           | StripeSession url =>
                               (Ok (Redirect url 303),
                                log (EvStripe rq (stripe_create svc rq))
                                  (notified_world cfg svc w data items total))
                           | StripeError e =>
                               (Ok (redirect url_checkout),
                                add_flash ("Payment processing error: " +++ e, "error"%string)
                                  (log (EvStripe rq (stripe_create svc rq))
                                     (notified_world cfg svc w data items total)))
                           end))
                  = orders (notified_world cfg svc w data items total)).
  { cbn zeta. destruct (stripe_create svc _); cbn; auto. }
  cbn zeta in Hw. destruct Hw as [Htr Hor]. rewrite Htr, Hor, Ht.
  rewrite notified_world_orders, <- app_assoc. cbn [app].
  split; [reflexivity|]. split; [exact Hns|]. split; [reflexivity|].
  split; [reflexivity|]. split; [cbn; apply List.length_map|].
  split; [reflexivity|]. split; [reflexivity|].
  split; [apply success_url_eq | reflexivity].
Qed.

(** C6. The unit amount of a provider line is [int(price * 100)], and
    this is not always the unit price times 100.  The catalog price
    [19.99] is the float nearest to 19.99; its product with 100 rounds to
    a float just below 1999, and [int] truncates it: the request asks for
    1998 minor units where the price times 100 is 1999.  For an [int]
    price the unit amount is the price times 100. *)
Theorem C6_unit_amount_truncates :
  let price := decimal 1999 2 in
  price = SpecFloat.S754_finite false 5626684784446013 (-48)
  /\ 2 * Z.abs (100 * 5626684784446013 - 1999 * 2 ^ 48) <= 100
  /\ mul (NFloat price) (NInt 100)
     = Ok (NFloat (SpecFloat.S754_finite false 8791694975696895 (-42)))
  /\ 8791694975696895 < 1999 * 2 ^ 42
  /\ unit_amount (NFloat price) = Ok 1998
  /\ (forall p, unit_amount (NInt p) = Ok (p * 100)).
Proof.
  cbn zeta. split; [vm_compute; reflexivity|].
  split; [vm_compute; discriminate|].
  split; [vm_compute; reflexivity|].
  split; [vm_compute; reflexivity|].
  split; [vm_compute; reflexivity|].
  intros p. apply unit_amount_int.
Qed.

(** ** The orders table over a sequence of requests *)

Lemma checkout_get_db cfg svc data w :
  let w' := snd (checkout cfg svc false data w) in
  orders w' = orders w /\ orders_seq w' = orders_seq w.
Proof.
  cbn zeta. destruct (session_cart w) as [[|x c']|] eqn:Hc.
  - rewrite checkout_no_cart by auto. split; reflexivity.
  - assert (Hne : x :: c' <> []) by discriminate.
    destruct (checkout_loop cfg (x :: c') [] 0) as [[items total]|e] eqn:Hl.
    + rewrite (checkout_get _ _ _ _ _ _ _ Hc Hne Hl). split; reflexivity.
    + rewrite (checkout_raises _ _ _ _ _ _ _ Hc Hne Hl). split; reflexivity.
  - rewrite checkout_no_cart by auto. split; reflexivity.
Qed.

Lemma new_row_loadable w data items total : loadable (new_row w data items total).
Proof. eexists. cbn. apply JsonFacts.loads_dumps_items. Qed.

(** A request leaves the table alone or appends one row, with the next
    id and a snapshot that decodes. *)
Lemma handle_db cfg svc rq w :
  let w' := snd (handle cfg svc rq w) in
  (orders w' = orders w /\ orders_seq w' = orders_seq w)
  \/ (exists row,
        orders w' = orders w ++ [row] /\ orders_seq w' = orders_seq w + 1
        /\ r_id row = orders_seq w + 1 /\ loadable row).
Proof.
  cbn zeta. destruct rq as [|pid| |data| |data|oid|p]; cbn [handle].
  - left. split; reflexivity.
  - left. unfold add_to_cart, bind, lift. rewrite get_product_int.
    destruct (find _ _); split; reflexivity.
  - left. unfold cart, bind, lift, session_get_cart.
    destruct (cart_loop cfg _ [] 0); split; reflexivity.
  - left. destruct (update_cart_spec data) as (c' & Hrun & _). rewrite Hrun.
    split; reflexivity.
  - left. apply checkout_get_db.
  - destruct (checkout_post_cases cfg svc data w)
      as [(Ho & _ & Hs & _) | (c & items & total & rest & _ & _ & _ & _ & _
                               & _ & Ho & Hs & _)].
    + left. auto.
    + right. exists (new_row w data items total).
      repeat split; auto. apply new_row_loadable.
  - left. split; reflexivity.
  - left. unfold admin, bind, select_orders, lift.
    destruct (negb _); [split; reflexivity|].
    destruct (sqlite_error svc); [split; reflexivity|].
    destruct (admin_loop _ []); split; reflexivity.
Qed.

(** Over any sequence of requests the table only grows, by rows with
    larger ids, and keeps its invariant. *)
Lemma serve_db rqs :
  forall w, db_inv w ->
    exists more,
      orders (serve rqs w) = orders w ++ more
      /\ Forall (fun r => orders_seq w < r_id r /\ loadable r) more
      /\ db_inv (serve rqs w).
Proof.
  induction rqs as [|[[cfg svc] rq] rest IH]; intros w Hinv.
  - exists []. rewrite app_nil_r. cbn. auto.
  - cbn [serve].
    destruct (handle_db cfg svc rq w) as [[Ho Hs] | (row & Ho & Hs & Hid & Hld)].
    + assert (Hinv' : db_inv (snd (handle cfg svc rq w))).
      { unfold db_inv. rewrite Ho, Hs. exact Hinv. }
      destruct (IH _ Hinv') as (more & Hmore & Hall & Hfin).
      exists more. rewrite Hmore, Ho, Hs in *. auto.
    + assert (Hinv' : db_inv (snd (handle cfg svc rq w))).
      { unfold db_inv. rewrite Ho, Hs. apply Forall_app. split.
        - eapply Forall_impl; [|exact Hinv]. cbn. intros r [Hr Hl]. split; [lia | exact Hl].
        - constructor; [|constructor]. split; [lia | exact Hld]. }
      destruct (IH _ Hinv') as (more & Hmore & Hall & Hfin).
      exists (row :: more). rewrite Hmore, Ho, <- app_assoc. cbn [app].
      split; [reflexivity|]. split; [|exact Hfin].
      constructor; [split; [lia | exact Hld]|].
      eapply Forall_impl; [|exact Hall]. cbn. rewrite Hs.
      intros r [Hr Hl]. split; [lia | exact Hl].
Qed.

(** Every state the application reaches from a fresh database keeps the
    invariant. *)
Lemma reachable_db_inv rqs : db_inv (serve rqs init_world).
Proof.
  destruct (serve_db rqs init_world) as (more & _ & _ & Hinv);
    [constructor | exact Hinv].
Qed.

(** ** The admin listing *)

Lemma insert_desc_in r rows x : In x (insert_desc r rows) <-> x = r \/ In x rows.
Proof.
  induction rows as [|r' rows IH]; cbn.
  - intuition.
  - destruct (r_id r' <=? r_id r); cbn; [intuition|]. rewrite IH. intuition.
Qed.

Lemma order_by_id_desc_in rows x : In x (order_by_id_desc rows) <-> In x rows.
Proof.
  induction rows as [|r rows IH]; cbn; [tauto|].
  rewrite insert_desc_in, IH. intuition.
Qed.

Lemma admin_loop_ok rows :
  Forall loadable rows ->
  forall acc,
    admin_loop rows acc = Ok (acc ++ map (fun r => order_of_row r (decode r)) rows).
Proof.
  induction 1 as [|r rows [v Hv] _ IH]; intros acc; cbn.
  - rewrite app_nil_r. reflexivity.
  - unfold decode. rewrite Hv, IH, <- app_assoc. reflexivity.
Qed.

(** With the right password and a working database, the admin page
    lists every row of the table, each with its decoded snapshot. *)
Lemma admin_lists cfg svc w :
  db_inv w -> sqlite_error svc = None ->
  exists os,
    admin cfg svc (Some (admin_pass cfg)) w
    = (Ok (Render (AdminPage (Some os) false)), w)
    /\ forall o, In o os <-> exists r, In r (orders w) /\ o = order_of_row r (decode r).
Proof.
  intros Hinv He.
  exists (map (fun r => order_of_row r (decode r)) (order_by_id_desc (orders w))).
  split.
  - unfold admin, bind, select_orders, lift. fold (admin_pass cfg).
    rewrite String.eqb_refl, He. cbn [negb].
    rewrite admin_loop_ok; [reflexivity|].
    apply Forall_forall. intros r Hr.
    apply (proj1 (order_by_id_desc_in _ _)) in Hr.
    unfold db_inv in Hinv. rewrite Forall_forall in Hinv. apply (Hinv r Hr).
  - intros o. rewrite in_map_iff. split.
    + intros (r & <- & Hr). exists r.
      split; [apply (proj1 (order_by_id_desc_in _ _) Hr) | reflexivity].
    + intros (r & Hr & ->). exists r.
      split; [reflexivity | apply (proj2 (order_by_id_desc_in _ _) Hr)].
Qed.

(** ** C7 *)

(** *** Integers that binary64 holds exactly *)

Lemma digits2_size p : SpecFloat.digits2_pos p = Pos.size p.
Proof. induction p; cbn; congruence. Qed.

Lemma digits2_bound p : Zpos p < 2 ^ 53 -> Zpos (SpecFloat.digits2_pos p) <= 53.
Proof.
  intros H. rewrite digits2_size.
  pose proof (Pos.size_le p) as Hle.
  assert (Hz : 2 ^ Zpos (Pos.size p) <= 2 * Zpos p).
  { change (2 * Zpos p) with (Zpos p~0). rewrite <- (Pos2Z.inj_pow 2).
    apply Pos2Z.pos_le_pos, Hle. }
  assert (Hlt : 2 ^ Zpos (Pos.size p) < 2 ^ 54)
    by (change (2 ^ 54) with (2 * 2 ^ 53); lia).
  apply Z.pow_lt_mono_r_iff in Hlt; lia.
Qed.

Lemma iter_xO_digits m d :
  SpecFloat.digits2_pos (Pos.iter xO m d) = (SpecFloat.digits2_pos m + d)%positive.
Proof.
  induction d as [|d IH] using Pos.peano_ind.
  - cbn. lia.
  - rewrite Pos.iter_succ. cbn [SpecFloat.digits2_pos]. rewrite IH. lia.
Qed.

Lemma iter_xO_val m d : Zpos (Pos.iter xO m d) = Zpos m * 2 ^ Zpos d.
Proof.
  induction d as [|d IH] using Pos.peano_ind.
  - cbn. lia.
  - rewrite Pos.iter_succ, Pos2Z.inj_succ, Z.pow_succ_r by lia.
    rewrite Pos2Z.inj_xO, IH. lia.
Qed.

(** A mantissa of 53 bits is not rounded. *)
Lemma binary_round_aux_exact s mz ez :
  Zpos (SpecFloat.digits2_pos mz) = 53 -> -1074 <= ez <= 971 ->
  SpecFloat.binary_round_aux prec emax s (Zpos mz) ez SpecFloat.loc_Exact
  = SpecFloat.S754_finite s mz ez.
Proof.
  intros Hd He.
  assert (Hshift : SpecFloat.fexp prec emax (Zpos (SpecFloat.digits2_pos mz) + ez) - ez
                   = 0).
  { unfold SpecFloat.fexp, SpecFloat.emin, prec, emax. rewrite Hd. lia. }
  unfold SpecFloat.binary_round_aux, SpecFloat.shr_fexp.
  cbn [SpecFloat.Zdigits2 SpecFloat.shr_record_of_loc]. rewrite Hshift.
  cbn [SpecFloat.shr SpecFloat.shr_m SpecFloat.loc_of_shr_record
       SpecFloat.round_nearest_even SpecFloat.Zdigits2 SpecFloat.shr_record_of_loc].
  rewrite Hshift. cbn [SpecFloat.shr SpecFloat.shr_m].
  assert (Hle : (ez <=? emax - prec) = true)
    by (apply Z.leb_le; unfold emax, prec; lia).
  rewrite Hle. reflexivity.
Qed.

(** An integer below [2^53] is aligned to 53 bits and kept. *)
Lemma binary_round_small s p :
  Zpos p < 2 ^ 53 ->
  exists mz ez,
    SpecFloat.binary_round prec emax s p 0 = SpecFloat.S754_finite s mz ez
    /\ ez <= 0 /\ Zpos mz = Zpos p * 2 ^ (- ez).
Proof.
  intros Hp. pose proof (digits2_bound p Hp) as Hd.
  unfold SpecFloat.binary_round, SpecFloat.shl_align.
  assert (Hf : SpecFloat.fexp prec emax (Zpos (SpecFloat.digits2_pos p) + 0)
               = Zpos (SpecFloat.digits2_pos p) - 53).
  { unfold SpecFloat.fexp, SpecFloat.emin, prec, emax. lia. }
  rewrite Hf, Z.sub_0_r.
  destruct (Zpos (SpecFloat.digits2_pos p) - 53) as [|q|d] eqn:Hq.
  - exists p, 0. split; [|split; [lia | cbn; lia]].
    apply binary_round_aux_exact; lia.
  - lia.
  - exists (Pos.iter xO p d), (Z.neg d). split; [|split; [lia|]].
    + apply binary_round_aux_exact; [rewrite iter_xO_digits|]; lia.
    + rewrite iter_xO_val. reflexivity.
Qed.

Lemma int_of_float_small s p :
  Zpos p < 2 ^ 53 ->
  int_of_float (SpecFloat.binary_round prec emax s p 0)
  = Ok (if s then - Zpos p else Zpos p).
Proof.
  intros Hp. destruct (binary_round_small s p Hp) as (mz & ez & -> & Hez & Hm).
  cbn [int_of_float]. rewrite Hm.
  destruct (Z.leb_spec 0 ez) as [H0 | H0].
  - assert (ez = 0) by lia. subst ez. cbn [Z.opp Z.pow].
    rewrite Z.shiftl_0_r, Z.mul_1_r. reflexivity.
  - rewrite Z.shiftr_div_pow2 by lia.
    rewrite Z.div_mul by (apply Z.pow_nonzero; lia). reflexivity.
Qed.

(** The [REAL] column keeps an integer of magnitude up to [2^53] as it
    is. *)
Lemma real_of_int_exact n : Z.abs n <= 2 ^ 53 -> real_of_int n = n.
Proof.
  intros H. destruct (Z.eq_dec (Z.abs n) (2 ^ 53)) as [E | E].
  - destruct (Z.abs_eq_or_opp n) as [E' | E']; rewrite E' in E.
    + rewrite E. vm_compute. reflexivity.
    + assert (En : n = - 2 ^ 53) by lia. rewrite En. vm_compute. reflexivity.
  - unfold real_of_int, nearest. destruct n as [|p|p]; [reflexivity| |];
      cbn [SpecFloat.binary_normalize]; rewrite int_of_float_small; try reflexivity;
      cbn [Z.abs] in *; lia.
Qed.

(** Above [2^53] the column keeps the leading 53 bits, rounded to
    nearest, ties to even. *)
Example real_of_int_rounds :
  map real_of_int
    [2 ^ 53 + 1; 2 ^ 53 + 2; 2 ^ 53 + 3; - (2 ^ 53 + 1); 9007199254741025;
     2 ^ 63 - 1; - 2 ^ 63; 2 ^ 62 + 2 ^ 9; 2 ^ 62 + 2 ^ 9 + 1]
  = [2 ^ 53; 2 ^ 53 + 2; 2 ^ 53 + 4; - 2 ^ 53; 9007199254741024;
     2 ^ 63; - 2 ^ 63; 2 ^ 62; 2 ^ 62 + 2 ^ 10].
Proof. vm_compute. reflexivity. Qed.

Lemma checkout_persisted_db cfg svc data w c items total :
  session_cart w = Some c -> c <> [] ->
  checkout_loop cfg c [] 0 = Ok (items, total) ->
  valid_form data = true ->
  sqlite_error svc = None ->
  fits_int64 total = true ->
  let w' := snd (checkout cfg svc true data w) in
  orders w' = orders w ++ [new_row w data items total]
  /\ orders_seq w' = orders_seq w + 1
  /\ session_cart w' = None.
Proof.
  intros Hc Hne Hl Hv He Hfit. cbn zeta.
  rewrite (checkout_persisted _ _ _ _ _ _ _ Hc Hne Hl Hv He Hfit). cbn zeta.
  destruct (wants_stripe cfg data); [destruct (stripe_create svc _)|]; cbn;
    rewrite notified_world_orders, notified_world_seq, notified_world_cart;
    auto.
Qed.

Lemma decode_new_row w data items total :
  decode (new_row w data items total) = items_value items.
Proof.
  unfold decode, new_row. cbn [r_items].
  rewrite JsonFacts.loads_dumps_items. reflexivity.
Qed.

(** C7, as stated, fails for the total: the column [total] is [REAL].
    A cart of 360287970189641 sparklers at 25 has the total
    9007199254741025 at checkout time; the order is stored, and read back
    its total is 9007199254741024. *)
Lemma C7_counterexample_total_rounded :
  let w := with_cart [("2", 360287970189641)]%string in
  let w1 := snd (checkout demo_cfg demo_svc true demo_form w) in
  fst (checkout demo_cfg demo_svc false [] w)
  = Ok (Render (CheckoutPage [ {| li_id := 2; li_name := "Sparkler"; li_price := 25;
                                   li_qty := 360287970189641 |} ]
                  9007199254741025))
  /\ match fst (admin demo_cfg demo_svc (Some "admin123"%string) w1) with
     | Ok (Render (AdminPage (Some os) false)) =>
         map (fun o => (o_id o, o_total o, o_paid o)) os
         = [(1, 9007199254741024, 0)]
     | _ => False
     end.
Proof. vm_compute. repeat split. Qed.

(** C7, amended. The items and the stored total of an order are frozen
    when it is created.  Let a checkout persist order N with the items
    and the total derived from the catalog of that moment; after any
    later requests, served with any catalogs and prices, the admin
    listing, read under any catalog, has exactly one order with id N, and
    it carries the same items, unpaid, and as total the checkout total
    converted to binary64 by the [REAL] column: the checkout total itself
    when its magnitude is at most [2^53]. *)
Theorem C7_order_snapshot_frozen cfg svc data w c items total later cfg' svc' :
  db_inv w ->
  session_cart w = Some c -> c <> [] ->
  checkout_loop cfg c [] 0 = Ok (items, total) ->
  valid_form data = true ->
  sqlite_error svc = None ->
  fits_int64 total = true ->
  sqlite_error svc' = None ->
  let N := orders_seq w + 1 in
  let w1 := snd (checkout cfg svc true data w) in
  let w2 := serve later w1 in
  exists os o,
    admin cfg' svc' (Some (admin_pass cfg')) w2
    = (Ok (Render (AdminPage (Some os) false)), w2)
    /\ In o os
    /\ o_id o = N
    /\ o_items o = items_value items
    /\ o_total o = real_of_int total
    /\ (Z.abs total <= 2 ^ 53 -> o_total o = total)
    /\ o_paid o = 0
    /\ (forall o', In o' os -> o_id o' = N -> o' = o).
Proof.
  intros Hinv Hc Hne Hl Hv He Hfit He' N w1 w2.
  destruct (checkout_persisted_db cfg svc data w c items total Hc Hne Hl Hv He Hfit)
    as (Ho & Hs & _).
  fold w1 in Ho, Hs.
  assert (Hinv1 : db_inv w1).
  { unfold db_inv. rewrite Ho, Hs. apply Forall_app. split.
    - eapply Forall_impl; [|exact Hinv]. cbn. intros r [Hr Hld]. split; [lia | exact Hld].
    - constructor; [|constructor]. split; [cbn; lia | apply new_row_loadable]. }
  destruct (serve_db later w1 Hinv1) as (more & Hmore & Hlater & Hinv2).
  fold w2 in Hmore, Hinv2.
  destruct (admin_lists cfg' svc' w2 Hinv2 He') as (os & Hrun & Hin).
  set (row := new_row w data items total) in *.
  exists os, (order_of_row row (decode row)).
  split; [exact Hrun|]. split; [|split; [|split; [|split; [|split; [|split]]]]].
  - apply Hin. exists row. split; [|reflexivity].
    rewrite Hmore, Ho. apply in_or_app. left. apply in_or_app. right. left. reflexivity.
  - reflexivity.
  - cbn [o_items order_of_row]. apply decode_new_row.
  - reflexivity.
  - intros Hsmall. cbn [o_total order_of_row row new_row r_total].
    apply real_of_int_exact, Hsmall.
  - reflexivity.
  - intros o' Ho' Hid. apply Hin in Ho'. destruct Ho' as (r & Hr & ->).
    cbn [o_id order_of_row] in Hid.
    rewrite Hmore, Ho in Hr. apply in_app_or in Hr. destruct Hr as [Hr | Hr].
    + apply in_app_or in Hr. destruct Hr as [Hr | [<- | []]].
      * exfalso. unfold db_inv in Hinv. rewrite Forall_forall in Hinv.
        destruct (Hinv r Hr) as [Hle _]. subst N. lia.
      * reflexivity.
    + exfalso. rewrite Forall_forall in Hlater.
      destruct (Hlater r Hr) as [Hlt _]. rewrite Hs in Hlt. subst N. lia.
Qed.

Lemma C7_witness :
  let w := with_cart [("1", 2); ("2", 1)]%string in
  let w1 := snd (checkout demo_cfg demo_svc true demo_form w) in
  let w2 := serve [(pricier_cfg, demo_svc, GetAddToCart 1);
                   (pricier_cfg, demo_svc, PostCheckout demo_form)] w1 in
  exists os o,
    admin pricier_cfg demo_svc (Some (admin_pass pricier_cfg)) w2
    = (Ok (Render (AdminPage (Some os) false)), w2)
    /\ In o os
    /\ o_id o = orders_seq w + 1
    /\ o_items o = items_value two_items
    /\ o_total o = real_of_int 45
    /\ (Z.abs 45 <= 2 ^ 53 -> o_total o = 45)
    /\ o_paid o = 0
    /\ (forall o', In o' os -> o_id o' = orders_seq w + 1 -> o' = o).
Proof.
  apply (C7_order_snapshot_frozen demo_cfg demo_svc demo_form
           (with_cart [("1", 2); ("2", 1)]%string) [("1", 2); ("2", 1)]%string
           two_items 45
           [(pricier_cfg, demo_svc, GetAddToCart 1);
            (pricier_cfg, demo_svc, PostCheckout demo_form)]
           pricier_cfg demo_svc).
  - constructor.
  - reflexivity.
  - discriminate.
  - reflexivity.
  - reflexivity.
  - reflexivity.
  - reflexivity.
  - reflexivity.
Defined.

(** The listing of the example, newest first: the second order was
    priced with the new catalog, the first keeps its snapshot. *)
Example admin_after_price_change :
  let w := with_cart [("1", 2); ("2", 1)]%string in
  let w1 := snd (checkout demo_cfg demo_svc true demo_form w) in
  let w2 := serve [(pricier_cfg, demo_svc, GetAddToCart 1);
                   (pricier_cfg, demo_svc, PostCheckout demo_form)] w1 in
  match fst (admin pricier_cfg demo_svc (Some "admin123"%string) w2) with
  | Ok (Render (AdminPage (Some os) false)) =>
      map (fun o => (o_id o, o_total o)) os = [(2, 99); (1, 45)]
  | _ => False
  end.
Proof. vm_compute. reflexivity. Qed.

(* ================================================================== *)
(** * Further properties of the application *)

(** ** [str] and [int] *)

Lemma digits_uint d :
  forall prev, (d <> Nil \/ prev = true) ->
    digits prev (NilEmpty.string_of_uint d) = Some d.
Proof.
  induction d; intros prev H; cbn;
    try (rewrite IHd by (right; reflexivity); reflexivity).
  destruct H as [H | ->]; [congruence | reflexivity].
Qed.

Lemma nb_digits_length d : nb_digits d = String.length (NilEmpty.string_of_uint d).
Proof. induction d; cbn; congruence. Qed.

Lemma numeral_uint d :
  d <> Nil ->
  (String.length (NilEmpty.string_of_uint d) <= max_str_digits)%nat ->
  numeral (NilEmpty.string_of_uint d) = Some d.
Proof.
  intros Hd Hlen. unfold numeral.
  rewrite digits_uint by (left; exact Hd).
  rewrite nb_digits_length. apply Nat.leb_le in Hlen. rewrite Hlen. reflexivity.
Qed.

Lemma is_space_digit c D : digit_of_ascii c = Some D -> is_space c = false.
Proof.
  destruct c as [[|] [|] [|] [|] [|] [|] [|] [|]]; cbn; intros H;
    try discriminate; reflexivity.
Qed.

Lemma rstrip_uint d : rstrip (NilEmpty.string_of_uint d) = NilEmpty.string_of_uint d.
Proof.
  induction d; cbn [NilEmpty.string_of_uint rstrip]; try reflexivity;
    rewrite IHd; destruct (NilEmpty.string_of_uint d); reflexivity.
Qed.

Lemma strip_uint d : strip (NilEmpty.string_of_uint d) = NilEmpty.string_of_uint d.
Proof.
  unfold strip.
  assert (H : lstrip (NilEmpty.string_of_uint d) = NilEmpty.string_of_uint d)
    by (destruct d; reflexivity).
  rewrite H. apply rstrip_uint.
Qed.

Lemma strip_neg_uint d :
  d <> Nil ->
  strip (String "-" (NilEmpty.string_of_uint d)) = String "-" (NilEmpty.string_of_uint d).
Proof.
  intros Hd. unfold strip. cbn [lstrip]. change (is_space "-") with false. cbv iota.
  cbn [rstrip]. rewrite rstrip_uint.
  destruct d; try congruence; reflexivity.
Qed.

(** [int(str(n))] is [n], for a numeral within the digit limit. *)
Lemma int_of_str_str n :
  (String.length (str n) <= max_str_digits)%nat -> int_of_str (str n) = Some n.
Proof.
  destruct (JsonFacts.str_shape n) as (d & [Hnil _] & [[-> ->] | [-> ->]]);
    intros Hlen.
  - unfold int_of_str. rewrite strip_uint.
    pose proof (numeral_uint d Hnil Hlen) as Hd.
    destruct d; try congruence; cbn [NilEmpty.string_of_uint]; cbv iota;
      cbn [NilEmpty.string_of_uint] in Hd; rewrite Hd; reflexivity.
  - unfold int_of_str. rewrite (strip_neg_uint d Hnil).
    rewrite numeral_uint; [reflexivity | exact Hnil |].
    cbn [String.length] in Hlen. apply Nat.le_trans with (2 := Hlen).
    apply Nat.le_succ_diag_r.
Qed.

(** The limit itself: a numeral of 4300 digits is converted, one of 4301
    digits is refused, leading zeros count and the sign does not. *)
Example int_digit_limit :
  let nines n := string_of_list_ascii (List.repeat "9"%char n) in
  let zeros n := string_of_list_ascii (List.repeat "0"%char n) in
  int_of_str (nines 4300%nat) = Some (10 ^ 4300 - 1)
  /\ int_of_str (nines 4301%nat) = None
  /\ int_of_str (String "-" (nines 4300%nat)) = Some (- (10 ^ 4300 - 1))
  /\ int_of_str (zeros 4300%nat) = Some 0
  /\ int_of_str (zeros 4301%nat) = None.
Proof. vm_compute. repeat split. Qed.

(** ** Product lookup *)

(** X1. Looking a product up by an integer id never raises; it returns
    the first product of the catalog with that id, which is then a
    catalog entry with the id asked for, and [None] exactly when no
    product has the id. *)
Theorem X1_get_product_by_id cfg pid :
  exists r,
    get_product cfg (VInt pid) = Ok r
    /\ r = find (fun p => p_id p =? pid) (PRODUCTS cfg)
    /\ (forall p, r = Some p -> In p (PRODUCTS cfg) /\ p_id p = pid)
    /\ (r = None <-> forall p, In p (PRODUCTS cfg) -> p_id p <> pid).
Proof.
  exists (find (fun p => p_id p =? pid) (PRODUCTS cfg)).
  split; [apply get_product_int|]. split; [reflexivity|]. split.
  - intros p Hp. apply find_some in Hp. destruct Hp as [Hin Heq].
    split; [exact Hin | apply Z.eqb_eq, Heq].
  - split.
    + intros Hnone p Hin Heq.
      pose proof (find_none _ _ Hnone p Hin) as Hf. cbn in Hf.
      apply Z.eqb_neq in Hf. contradiction.
    + intros Hall. destruct (find _ _) as [p|] eqn:Hf; [|reflexivity].
      apply find_some in Hf. destruct Hf as [Hin Heq].
      apply Z.eqb_eq in Heq. exfalso. exact (Hall p Hin Heq).
Qed.

(** The key [add_to_cart] stores for a product leads back to the same
    product. *)
Lemma get_product_str_of_int cfg pid :
  (String.length (str pid) <= max_str_digits)%nat ->
  get_product cfg (VStr (str pid)) = get_product cfg (VInt pid).
Proof.
  intros Hlen. unfold get_product.
  rewrite (get_product_in_parsed _ (VStr (str pid)) pid (int_of_str_str pid Hlen)).
  rewrite (get_product_in_parsed _ (VInt pid) pid eq_refl). reflexivity.
Qed.

(** ** The cart page and the checkout agree *)

Lemma loops_agree cfg c :
  forall items total,
    checkout_loop cfg c (map line_item_of_cart_item items) total
    = match cart_loop cfg c items total with
      | Ok (items', total') => Ok (map line_item_of_cart_item items', total')
      | Raise e => Raise e
      end.
Proof.
  induction c as [|[pid qty] rest IH]; intros items total; cbn [checkout_loop cart_loop].
  - reflexivity.
  - destruct (get_product cfg (VStr pid)) as [[p|]|e]; [|apply IH|reflexivity].
    rewrite <- IH, map_app. reflexivity.
Qed.

(** X2. The cart page and the checkout derive the same thing from a
    cart, whatever its keys: either both raise the same exception, or the
    checkout's items are the cart page's items (same product id, name,
    unit price and quantity, in the same order) and the two totals are
    equal. *)
Theorem X2_cart_page_and_checkout_agree cfg c :
  match cart_loop cfg c [] 0, checkout_loop cfg c [] 0 with
  | Ok (citems, ctotal), Ok (items, total) =>
      items = map line_item_of_cart_item citems /\ total = ctotal
  | Raise e, Raise e' => e = e'
  | _, _ => False
  end.
Proof.
  pose proof (loops_agree cfg c [] 0) as H. cbn [map] in H. rewrite H.
  destruct (cart_loop cfg c [] 0) as [[citems ctotal]|e]; auto.
Qed.

(** ** Line items of a cart with integer keys *)



(** ** Adding to the cart, then looking at it *)

Lemma cart_loop_acc cfg c :
  forall items total,
    cart_loop cfg c items total
    = match cart_loop cfg c [] 0 with
      | Ok (i, t) => Ok (items ++ i, total + t)
      | Raise e => Raise e
      end.
Proof.
  induction c as [|[pid qty] rest IH]; intros items total; cbn [cart_loop].
  - rewrite app_nil_r, Z.add_0_r. reflexivity.
  - destruct (get_product cfg (VStr pid)) as [[p|]|e]; [|apply IH|reflexivity].
    rewrite (IH (items ++ _)), (IH ([] ++ _)).
    destruct (cart_loop cfg rest [] 0) as [[i t]|e]; [|reflexivity].
    rewrite <- app_assoc. cbn [app]. f_equal. f_equal. lia.
Qed.

Lemma cart_total_after_add cfg k p :
  get_product cfg (VStr k) = Ok (Some p) ->
  forall c items total,
    cart_loop cfg c [] 0 = Ok (items, total) ->
    exists items' total',
      cart_loop cfg (dict_set c k (dict_get_default c k 0 + 1)) [] 0
      = Ok (items', total')
      /\ total' = total + p_price p.
Proof.
  intros Hp. induction c as [|[k' q'] rest IH]; intros items total Hl.
  - cbn in Hl. injection Hl as <- <-. cbn [dict_set cart_loop]. rewrite Hp.
    do 2 eexists. split; [reflexivity|]. cbn. lia.
  - unfold dict_get_default in *. cbn [dict_get dict_set].
    cbn [cart_loop] in Hl.
    destruct (String.eqb_spec k' k) as [->|Hne].
    + cbn [cart_loop]. rewrite Hp in *.
      rewrite cart_loop_acc in Hl. rewrite cart_loop_acc.
      destruct (cart_loop cfg rest [] 0) as [[i t]|e]; [|discriminate].
      injection Hl as <- <-. do 2 eexists. split; [reflexivity|]. cbn. lia.
    + cbn [cart_loop].
      destruct (get_product cfg (VStr k')) as [[p'|]|e]; [| |discriminate].
      * rewrite cart_loop_acc in Hl. rewrite cart_loop_acc.
        destruct (cart_loop cfg rest [] 0) as [[i t]|e] eqn:Hrest; [|discriminate].
        injection Hl as <- <-.
        destruct (IH i t eq_refl) as (i' & t' & Hl' & ->). rewrite Hl'.
        do 2 eexists. split; [reflexivity|]. cbn. lia.
      * apply (IH items total Hl).
Qed.

Lemma cart_page cfg w :
  cart cfg w
  = match cart_loop cfg (cart_of w) [] 0 with
    | Ok (i, t) => (Ok (Render (CartPage i t)), w)
    | Raise e => (Raise e, w)
    end.
Proof.
  unfold cart, bind, session_get_cart, lift, cart_of.
  destruct (cart_loop cfg _ [] 0) as [[i t]|e]; reflexivity.
Qed.

Lemma add_to_cart_cart cfg pid p w :
  get_product cfg (VInt pid) = Ok (Some p) ->
  cart_of (snd (add_to_cart cfg pid w))
  = dict_set (cart_of w) (str pid) (dict_get_default (cart_of w) (str pid) 0 + 1).
Proof.
  intros Hp. rewrite (add_to_cart_found _ _ _ _ Hp).
  unfold cart_of, cart_qty. cbn. destruct (session_cart w); reflexivity.
Qed.

(** X4. On this catalog of integer prices, adding a product to the cart
    raises the total of the cart page by the unit price of that product:
    when the product is in the catalog, its id is a numeral within the
    digit limit of [int()], and the cart page showed a total before the
    add, it shows that total plus the price after it. *)
Theorem X4_add_to_cart_raises_total cfg pid p w items total :
  get_product cfg (VInt pid) = Ok (Some p) ->
  (String.length (str pid) <= max_str_digits)%nat ->
  fst (cart cfg w) = Ok (Render (CartPage items total)) ->
  exists items',
    fst (cart cfg (snd (add_to_cart cfg pid w)))
    = Ok (Render (CartPage items' (total + p_price p))).
Proof.
  intros Hp Hlen Hpage.
  rewrite cart_page in Hpage. rewrite cart_page, (add_to_cart_cart _ _ _ _ Hp).
  destruct (cart_loop cfg (cart_of w) [] 0) as [[i t]|e] eqn:Hl;
    cbn in Hpage; [|discriminate].
  injection Hpage as <- <-.
  assert (Hps : get_product cfg (VStr (str pid)) = Ok (Some p))
    by (rewrite get_product_str_of_int; [exact Hp | exact Hlen]).
  destruct (cart_total_after_add cfg (str pid) p Hps (cart_of w) i t Hl)
    as (i' & t' & Hl' & ->).
  rewrite Hl'. exists i'. reflexivity.
Qed.

Lemma X4_witness :
  exists items',
    fst (cart demo_cfg (snd (add_to_cart demo_cfg 2 (with_cart [("1", 2); ("2", 1)]%string))))
    = Ok (Render (CartPage items' (45 + 25))).
Proof.
  apply (X4_add_to_cart_raises_total demo_cfg 2
           {| p_id := 2; p_name := "Sparkler"; p_price := 25 |}
           (with_cart [("1", 2); ("2", 1)]%string)
           [ {| ci_product := {| p_id := 1; p_name := "Rocket"; p_price := 10 |};
                ci_qty := 2; ci_subtotal := 20 |};
             {| ci_product := {| p_id := 2; p_name := "Sparkler"; p_price := 25 |};
                ci_qty := 1; ci_subtotal := 25 |} ] 45).
  - reflexivity.
  - cbn. unfold max_str_digits. lia.
  - reflexivity.
Defined.

(** ** What a request changes *)

Lemma checkout_get_state cfg svc data w :
  let w' := snd (checkout cfg svc false data w) in
  orders w' = orders w /\ orders_seq w' = orders_seq w
  /\ session_cart w' = session_cart w /\ trace w' = trace w.
Proof.
  cbn zeta. destruct (session_cart w) as [[|x c']|] eqn:Hc.
  - rewrite checkout_no_cart by auto. cbn. auto.
  - assert (Hne : x :: c' <> []) by discriminate.
    destruct (checkout_loop cfg (x :: c') [] 0) as [[items total]|e] eqn:Hl.
    + rewrite (checkout_get _ _ _ _ _ _ _ Hc Hne Hl). cbn. auto.
    + rewrite (checkout_raises _ _ _ _ _ _ _ Hc Hne Hl). cbn. auto.
  - rewrite checkout_no_cart by auto. cbn. auto.
Qed.

Lemma admin_state cfg svc p w : snd (admin cfg svc p w) = w.
Proof.
  unfold admin, bind, select_orders, lift.
  destruct (negb _); [reflexivity|].
  destruct (sqlite_error svc); [reflexivity|].
  destruct (admin_loop _ []); reflexivity.
Qed.

Lemma cart_state cfg w : snd (cart cfg w) = w.
Proof. rewrite cart_page. destruct (cart_loop cfg _ [] 0) as [[i t]|e]; reflexivity. Qed.

(** X5. Only a checkout submission touches the [orders] table or the
    outside world: every other request leaves the table, its id counter
    and the log of external effects as they were.  The pages that only
    show something (index, cart, success, admin) leave the whole state
    unchanged, and so does the checkout page except for the message it
    flashes on an empty cart. *)
Theorem X5_only_checkout_submission_has_effects cfg svc rq w :
  let w' := snd (handle cfg svc rq w) in
  match rq with
  | PostCheckout _ => True
  | GetAddToCart _ | PostUpdateCart _ =>
      orders w' = orders w /\ orders_seq w' = orders_seq w /\ trace w' = trace w
  | GetCheckout =>
      orders w' = orders w /\ orders_seq w' = orders_seq w /\ trace w' = trace w
      /\ session_cart w' = session_cart w
  | GetIndex | GetCart | GetSuccess _ | GetAdmin _ => w' = w
  end.
Proof.
  cbn zeta. destruct rq as [|pid| |data| |data|oid|p]; cbn [handle].
  - reflexivity.
  - unfold add_to_cart, bind, lift. rewrite get_product_int.
    destruct (find _ _); cbn; auto.
  - apply cart_state.
  - destruct (update_cart_spec data) as (c' & Hrun & _). rewrite Hrun. cbn. auto.
  - destruct (checkout_get_state cfg svc [] w) as (Ho & Hs & Hc & Ht). auto.
  - exact I.
  - reflexivity.
  - apply admin_state.
Qed.

(** ** The cart invariant *)

Lemma dict_set_forall {V} (P : string * V -> Prop) (d : dict V) k v :
  (forall k0 v0, P (k0, v0) -> P (k0, v)) ->
  P (k, v) -> Forall P d -> Forall P (dict_set d k v).
Proof.
  intros Hkey Hp. induction d as [|[k0 v0] r IH]; cbn; intros Hall.
  - constructor; [exact Hp | constructor].
  - inversion Hall; subst.
    destruct (String.eqb k0 k); constructor; auto. eapply Hkey; eassumption.
Qed.

Lemma dict_set_wf (c : cart_t) k v : 0 < v -> cart_wf c -> cart_wf (dict_set c k v).
Proof.
  intros Hv Hpos. apply dict_set_forall; auto.
Qed.

Lemma dict_get_default_nonneg (c : cart_t) k :
  Forall (fun kv => 0 < snd kv) c -> 0 <= dict_get_default c k 0.
Proof.
  unfold dict_get_default. induction 1 as [|[k0 v0] r Hv _ IH]; cbn; [lia|].
  destruct (String.eqb k0 k); [cbn in Hv; lia | exact IH].
Qed.

Lemma update_cart_loop_wf data keys :
  forall acc c', cart_wf acc -> update_cart_loop data keys acc = Ok c' -> cart_wf c'.
Proof.
  induction keys as [|key rest IH]; intros acc c' Hwf; cbn [update_cart_loop].
  - intros [= <-]. exact Hwf.
  - destruct (startswith key "qty-"); [|apply IH, Hwf].
    destruct (split1 "-" key) as [|? [|pid ?]]; try discriminate.
    match goal with
    | |- context [if ?q >? 0 then _ else _] => destruct (Z.gtb_spec q 0) as [Hq|Hq]
    end.
    + apply IH, dict_set_wf; [lia | exact Hwf].
    + apply IH, Hwf.
Qed.

Lemma handle_cart_wf cfg svc rq w :
  session_cart_wf w -> session_cart_wf (snd (handle cfg svc rq w)).
Proof.
  intros Hwf.
  destruct rq as [|pid| |data| |data|oid|p]; cbn [handle].
  - exact Hwf.
  - unfold add_to_cart, bind, lift. rewrite get_product_int.
    destruct (find _ _) as [p|]; [|exact Hwf].
    unfold session_cart_wf in *. unfold session_get_cart. cbn.
    destruct (session_cart w) as [c|].
    + apply dict_set_wf; [|exact Hwf].
      pose proof (dict_get_default_nonneg c (str pid) Hwf). lia.
    + apply dict_set_wf; [cbn; lia|]. constructor.
  - rewrite cart_state. exact Hwf.
  - unfold update_cart, bind, lift.
    destruct (update_cart_loop data (form_keys data) []) as [c'|e] eqn:Hl; [|exact Hwf].
    cbn. unfold session_cart_wf. cbn.
    apply (update_cart_loop_wf data (form_keys data) [] c'); [constructor | exact Hl].
  - destruct (checkout_get_state cfg svc [] w) as (_ & _ & Hc & _).
    unfold session_cart_wf. rewrite Hc. exact Hwf.
  - destruct (checkout_post_cases cfg svc data w)
      as [(_ & Hc & _) | (c & items & total & rest & _ & _ & _ & _ & _ & _ & _ & _ & Hc & _)];
      unfold session_cart_wf; rewrite Hc; [exact Hwf | exact I].
  - exact Hwf.
  - rewrite admin_state. exact Hwf.
Qed.

(** X6. Every quantity stored in the cart is at least 1: in every state
    the application reaches from a fresh session, whatever requests were
    served, each key of the cart has a quantity of 1 or more. *)
Theorem X6_cart_quantities_positive rqs :
  match session_cart (serve rqs init_world) with
  | Some c => forall pid q, dict_get c pid = Some q -> 1 <= q
  | None => True
  end.
Proof.
  assert (H : forall w, session_cart_wf w -> session_cart_wf (serve rqs w)).
  { induction rqs as [|[[cfg svc] rq] rest IH]; intros w Hwf; cbn [serve].
    - exact Hwf.
    - apply IH, handle_cart_wf, Hwf. }
  specialize (H init_world I). unfold session_cart_wf in H.
  destruct (session_cart (serve rqs init_world)) as [c|]; [|exact I].
  intros pid q Hq.
  induction H as [|[k0 v0] r Hv _ IH]; cbn in Hq; [discriminate|].
  destruct (String.eqb k0 pid); [injection Hq as <-; cbn in Hv; lia | apply IH, Hq].
Qed.

(** ** A total the database cannot take *)

Lemma db_inv_loadable w :
  db_inv w -> Forall loadable (order_by_id_desc (orders w)).
Proof.
  intros Hinv. apply Forall_forall. intros r Hr.
  apply (proj1 (order_by_id_desc_in _ _)) in Hr.
  unfold db_inv in Hinv. rewrite Forall_forall in Hinv. apply (Hinv r Hr).
Qed.



(** ** Order ids *)

Lemma first_ids_succ n : first_ids (S n) = first_ids n ++ [Z.of_nat (S n)].
Proof. unfold first_ids. rewrite seq_S, map_app. reflexivity. Qed.

Lemma serve_ids rqs :
  forall w,
    map r_id (orders w) = first_ids (List.length (orders w)) ->
    orders_seq w = Z.of_nat (List.length (orders w)) ->
    map r_id (orders (serve rqs w)) = first_ids (List.length (orders (serve rqs w)))
    /\ orders_seq (serve rqs w) = Z.of_nat (List.length (orders (serve rqs w))).
Proof.
  induction rqs as [|[[cfg svc] rq] rest IH]; intros w Hids Hseq; cbn [serve].
  - auto.
  - destruct (handle_db cfg svc rq w) as [[Ho Hs] | (row & Ho & Hs & Hid & _)].
    + apply IH; rewrite Ho; [|rewrite Hs]; assumption.
    + apply IH; rewrite Ho, List.length_app, ?map_app; cbn [List.length map].
      * rewrite Nat.add_1_r, first_ids_succ, Hids, Hid, Hseq. f_equal. f_equal. lia.
      * rewrite Hs, Hseq. lia.
Qed.

(** X9. Order ids are assigned in sequence: in every state reached from
    a fresh database the rows of the table carry, in insertion order, the
    ids 1, 2, ..., n, so ids are unique, increase with time, and the id
    counter equals the number of orders; a checkout that fails leaves no
    gap. *)
Theorem X9_order_ids_sequential rqs :
  let w := serve rqs init_world in
  map r_id (orders w) = first_ids (List.length (orders w))
  /\ orders_seq w = Z.of_nat (List.length (orders w)).
Proof. apply serve_ids; reflexivity. Qed.

(** ** The admin page *)

Lemma insert_desc_last r l :
  Forall (fun r' => r_id r < r_id r') l -> insert_desc r l = l ++ [r].
Proof.
  induction 1 as [|r' l Hlt _ IH]; cbn; [reflexivity|].
  destruct (Z.leb_spec (r_id r') (r_id r)); [lia|]. rewrite IH. reflexivity.
Qed.

Lemma order_by_id_desc_increasing rows :
  forall a,
    map r_id rows = map Z.of_nat (seq a (List.length rows)) ->
    order_by_id_desc rows = List.rev rows.
Proof.
  induction rows as [|r rest IH]; intros a Hids; [reflexivity|].
  cbn in Hids. injection Hids as Hr Hrest.
  cbn [order_by_id_desc fold_right List.rev].
  change (fold_right insert_desc [] rest) with (order_by_id_desc rest).
  rewrite (IH (S a) Hrest). apply insert_desc_last.
  apply Forall_forall. intros r' Hin. apply in_rev in Hin.
  apply (in_map r_id) in Hin. rewrite Hrest in Hin.
  apply in_map_iff in Hin. destruct Hin as (k & <- & Hk).
  apply in_seq in Hk. lia.
Qed.

(** X10. The admin page lists the newest order first.  In every state
    reached from a fresh database, with the right password and a working
    database, it shows all the orders of the table in reverse order of
    insertion, ids n, n-1, ..., 1, each with the customer fields, the
    total and the paid flag of its row and with its decoded snapshot of
    items; it raises nothing and changes nothing. *)
Theorem X10_admin_lists_newest_first rqs cfg svc :
  sqlite_error svc = None ->
  let w := serve rqs init_world in
  admin cfg svc (Some (admin_pass cfg)) w
  = (Ok (Render (AdminPage
                   (Some (map (fun r => order_of_row r (decode r)) (List.rev (orders w))))
                   false)), w)
  /\ map o_id (map (fun r => order_of_row r (decode r)) (List.rev (orders w)))
     = List.rev (first_ids (List.length (orders w))).
Proof.
  intros He w.
  destruct (serve_ids rqs init_world eq_refl eq_refl) as [Hids _]. fold w in Hids.
  pose proof (reachable_db_inv rqs) as Hinv. fold w in Hinv.
  split.
  - unfold admin, bind, select_orders, lift. fold (admin_pass cfg).
    rewrite String.eqb_refl, He. cbn [negb].
    rewrite (admin_loop_ok _ (db_inv_loadable w Hinv)).
    rewrite (order_by_id_desc_increasing (orders w) 1 Hids). reflexivity.
  - rewrite <- Hids, <- map_rev, map_map. reflexivity.
Qed.

Lemma X10_witness :
  let w := serve [(demo_cfg, demo_svc, GetAddToCart 1);
                  (demo_cfg, demo_svc, PostCheckout demo_form);
                  (demo_cfg, demo_svc, GetAddToCart 2);
                  (demo_cfg, demo_svc, PostCheckout demo_form)] init_world in
  map o_id (map (fun r => order_of_row r (decode r)) (List.rev (orders w))) = [2; 1].
Proof.
  destruct (X10_admin_lists_newest_first
              [(demo_cfg, demo_svc, GetAddToCart 1);
               (demo_cfg, demo_svc, PostCheckout demo_form);
               (demo_cfg, demo_svc, GetAddToCart 2);
               (demo_cfg, demo_svc, PostCheckout demo_form)] demo_cfg demo_svc)
    as [_ H].
  - reflexivity.
  - cbn zeta. rewrite H. reflexivity.
Defined.

(** X11. The admin page shows orders to the configured password only.
    With any other value of [p], or none, the page is the denied one and
    carries no orders, whatever the table holds and whether or not the
    database works; whenever the page carries a list of orders, the
    password given was the configured one ([admin123] when none is
    configured) and the database answered; with the right password and a
    database error the page carries no orders and is not marked denied.
    The state is never changed. *)
Theorem X11_admin_orders_need_password cfg svc p w :
  (p <> Some (admin_pass cfg) ->
   admin cfg svc p w = (Ok (Render (AdminPage None true)), w))
  /\ (forall os denied,
        fst (admin cfg svc p w) = Ok (Render (AdminPage (Some os) denied)) ->
        p = Some (admin_pass cfg) /\ denied = false /\ sqlite_error svc = None)
  /\ (forall e,
        p = Some (admin_pass cfg) -> sqlite_error svc = Some e ->
        admin cfg svc p w = (Ok (Render (AdminPage None false)), w))
  /\ (ADMIN_PASSWORD cfg = None -> admin_pass cfg = "admin123"%string)
  /\ snd (admin cfg svc p w) = w.
Proof.
  assert (Hdec : (match p with
                  | Some s => String.eqb s (admin_pass cfg)
                  | None => false
                  end = true) <-> p = Some (admin_pass cfg)).
  { destruct p as [s|]; [|split; discriminate].
    rewrite String.eqb_eq. split; [intros ->; reflexivity | intros [= ->]; reflexivity]. }
  split; [|split; [|split; [|split]]].
  - intros Hp. unfold admin, bind. fold (admin_pass cfg).
    destruct (match p with Some s => String.eqb s (admin_pass cfg) | None => false end)
      eqn:E; [|reflexivity].
    exfalso. apply Hp, Hdec. reflexivity.
  - intros os denied. unfold admin, bind, select_orders, lift. fold (admin_pass cfg).
    destruct (match p with Some s => String.eqb s (admin_pass cfg) | None => false end)
      eqn:E; cbn [negb]; [|discriminate].
    destruct (sqlite_error svc); [discriminate|].
    destruct (admin_loop _ []); [|discriminate].
    cbn. intros [= <- <-]. split; [apply Hdec; reflexivity | auto].
  - intros e -> He. unfold admin, bind, select_orders, lift. fold (admin_pass cfg).
    rewrite String.eqb_refl, He. reflexivity.
  - unfold admin_pass. intros ->. reflexivity.
  - apply admin_state.
Qed.

Lemma X11_witness :
  admin cash_cfg demo_svc (Some "admin123"%string)
    (serve [(demo_cfg, demo_svc, GetAddToCart 1);
            (demo_cfg, demo_svc, PostCheckout demo_form)] init_world)
  = (Ok (Render (AdminPage None true)),
     serve [(demo_cfg, demo_svc, GetAddToCart 1);
            (demo_cfg, demo_svc, PostCheckout demo_form)] init_world).
Proof.
  destruct (X11_admin_orders_need_password cash_cfg demo_svc (Some "admin123"%string)
              (serve [(demo_cfg, demo_svc, GetAddToCart 1);
                      (demo_cfg, demo_svc, PostCheckout demo_form)] init_world))
    as [H _].
  apply H. discriminate.
Defined.

(** ** Notification *)

Lemma notified_world_emails cfg svc w data items total :
  exists rest,
    trace (notified_world cfg svc w data items total)
    = trace w ++ EvInsert (new_row w data items total) :: EvCartPopped :: rest
    /\ rest
       = if email_skipped cfg data then []
         else
           let msg := order_email cfg (form_get data "email") (form_get data "name")
                        (orders_seq w + 1) items total (form_get data "delivery_type") in
           [EvEmail msg (smtp_sends svc msg)].
Proof.
  unfold notified_world. destruct (email_skipped cfg data).
  - exists []. cbn. rewrite <- app_assoc. split; reflexivity.
  - eexists. cbn. rewrite <- !app_assoc. cbn. split; reflexivity.
Qed.

(** X12. The outcome of the notification never reaches the visitor or
    the order.  Two runs of a checkout submission that differ only in how
    the mail transport behaves give the same response and leave the same
    cart, the same flashed messages and the same table. *)
Theorem X12_notification_outcome_is_ignored cfg svc svc' data w :
  same_but_smtp svc svc' ->
  let r := checkout cfg svc true data w in
  let r' := checkout cfg svc' true data w in
  fst r = fst r'
  /\ session_cart (snd r) = session_cart (snd r')
  /\ session_flashes (snd r) = session_flashes (snd r')
  /\ orders (snd r) = orders (snd r')
  /\ orders_seq (snd r) = orders_seq (snd r').
Proof.
  intros [Hdb Hstripe]. cbn zeta.
  destruct (session_cart w) as [[|x c']|] eqn:Hc.
  - rewrite !checkout_no_cart by auto. auto.
  - assert (Hne : x :: c' <> []) by discriminate.
    destruct (checkout_loop cfg (x :: c') [] 0) as [[items total]|e] eqn:Hl.
    + destruct (valid_form data) eqn:Hv.
      * destruct (sqlite_error svc) as [msg|] eqn:He; symmetry in Hdb.
        -- rewrite (checkout_db_error cfg svc _ _ _ _ _ _ Hc Hne Hl Hv He).
           rewrite (checkout_db_error cfg svc' _ _ _ _ _ _ Hc Hne Hl Hv Hdb). auto.
        -- destruct (fits_int64 total) eqn:Hfit;
             [|rewrite (checkout_overflow cfg svc _ _ _ _ _ Hc Hne Hl Hv He Hfit),
                 (checkout_overflow cfg svc' _ _ _ _ _ Hc Hne Hl Hv Hdb Hfit); auto].
           rewrite (checkout_persisted cfg svc _ _ _ _ _ Hc Hne Hl Hv He Hfit).
           rewrite (checkout_persisted cfg svc' _ _ _ _ _ Hc Hne Hl Hv Hdb Hfit).
           cbn zeta. rewrite <- Hstripe.
           destruct (wants_stripe cfg data); [destruct (stripe_create svc _)|]; cbn;
             rewrite !notified_world_cart, !notified_world_flashes,
               !notified_world_orders, !notified_world_seq; auto.
      * rewrite !(checkout_invalid _ _ _ _ _ _ _ Hc Hne Hl Hv). auto.
    + rewrite !(checkout_raises _ _ _ _ _ _ _ Hc Hne Hl). auto.
  - rewrite !checkout_no_cart by auto. auto.
Qed.

Lemma X12_witness :
  let w := with_cart [("1", 2); ("2", 1)]%string in
  fst (checkout demo_cfg demo_svc true mail_form w)
  = fst (checkout demo_cfg no_mail_svc true mail_form w)
  /\ orders (snd (checkout demo_cfg demo_svc true mail_form w))
     = orders (snd (checkout demo_cfg no_mail_svc true mail_form w)).
Proof.
  destruct (X12_notification_outcome_is_ignored demo_cfg demo_svc no_mail_svc mail_form
              (with_cart [("1", 2); ("2", 1)]%string))
    as (Hr & _ & _ & Ho & _).
  - split; [reflexivity | intros rq; reflexivity].
  - split; assumption.
Defined.

(** X13. A checkout submission tries to send at most one confirmation
    email, and only after the order is in the table.  Without an insert
    no mail is attempted.  With an insert there is exactly one attempt
    when the mail account is configured and the visitor gave an address,
    and none otherwise; the message goes to that address, from the
    configured account, and its subject carries the id of the new order. *)
Theorem X13_one_confirmation_email_after_insert cfg svc data w :
  let w' := snd (checkout cfg svc true data w) in
  exists tr,
    trace w' = trace w ++ tr
    /\ (orders w' = orders w -> filter is_email_event tr = [])
    /\ (forall row,
          orders w' = orders w ++ [row] ->
          if email_skipped cfg data then filter is_email_event tr = []
          else exists msg sent,
                 filter is_email_event tr = [EvEmail msg sent]
                 /\ sent = smtp_sends svc msg
                 /\ Some (m_to msg) = form_get data "email"
                 /\ Some (m_from msg) = EMAIL_USER cfg
                 /\ m_subject msg
                    = "Order Confirmation #" +++ str (r_id row) +++ " - Cracker Shop").
Proof.
  cbn zeta.
  destruct (checkout_post_cases cfg svc data w)
    as [(Ho & _ & _ & Ht) | (c & items & total & rest & Hc & Hne & Hl & Hv & He
                             & Hfit & Ho & _ & _ & _)].
  - exists []. rewrite app_nil_r. split; [exact Ht|]. split; [reflexivity|].
    intros row Hrow. rewrite Ho in Hrow. symmetry in Hrow.
    destruct (app_one_neq _ _ Hrow).
  - clear rest.
    destruct (notified_world_emails cfg svc w data items total) as (rest & Ht & Hrest).
    assert (Hmail : if email_skipped cfg data then filter is_email_event rest = []
                    else exists msg sent,
                        filter is_email_event rest = [EvEmail msg sent]
                        /\ sent = smtp_sends svc msg
                        /\ Some (m_to msg) = form_get data "email"
                        /\ Some (m_from msg) = EMAIL_USER cfg
                        /\ m_subject msg
                           = "Order Confirmation #" +++ str (orders_seq w + 1)
                               +++ " - Cracker Shop").
    { subst rest. destruct (email_skipped cfg data) eqn:Hsk; [reflexivity|].
      do 2 eexists. split; [reflexivity|]. split; [reflexivity|].
      unfold email_skipped in Hsk.
      apply orb_false_iff in Hsk. destruct Hsk as [Hsk Hto].
      apply orb_false_iff in Hsk. destruct Hsk as [Huser _].
      cbn [order_email m_to m_from m_subject].
      destruct (form_get data "email") as [addr|]; [|discriminate].
      destruct (EMAIL_USER cfg) as [user|]; [|discriminate]. auto. }
    pose proof (checkout_persisted cfg svc data w c items total Hc Hne Hl Hv He Hfit)
      as Hrun.
    cbn zeta in Hrun.
    assert (Hcases :
              exists tr,
                trace (snd (checkout cfg svc true data w)) = trace w ++ tr
                /\ filter is_email_event tr = filter is_email_event rest).
    { rewrite Hrun. destruct (wants_stripe cfg data).
      - exists (EvInsert (new_row w data items total) :: EvCartPopped
                  :: rest ++ [EvStripe (stripe_request_of cfg items (orders_seq w + 1))
                                (stripe_create svc (stripe_request_of cfg items (orders_seq w + 1)))]).
        split.
        + destruct (stripe_create svc _); cbn; rewrite Ht, <- app_assoc; reflexivity.
        + cbn. rewrite filter_app. cbn. apply app_nil_r.
      - exists (EvInsert (new_row w data items total) :: EvCartPopped :: rest).
        split; [cbn; exact Ht | reflexivity]. }
    destruct Hcases as (tr & Htr & Hf). exists tr. split; [exact Htr|]. split.
    + intros Hsame. rewrite Ho in Hsame. destruct (app_one_neq _ _ Hsame).
    + intros row Hrow. rewrite Ho in Hrow. apply app_inv_head in Hrow.
      injection Hrow as <-. rewrite Hf. exact Hmail.
Qed.

Lemma X13_witness :
  let w := with_cart [("1", 2); ("2", 1)]%string in
  exists tr,
    trace (snd (checkout demo_cfg demo_svc true mail_form w)) = trace w ++ tr
    /\ List.length (filter is_email_event tr) = 1%nat.
Proof.
  destruct (X13_one_confirmation_email_after_insert demo_cfg demo_svc mail_form
              (with_cart [("1", 2); ("2", 1)]%string))
    as (tr & Ht & _ & Hrow).
  exists tr. split; [exact Ht|].
  destruct (Hrow (new_row (with_cart [("1", 2); ("2", 1)]%string) mail_form two_items 45)
              eq_refl) as (msg & sent & Hf & _).
  rewrite Hf. reflexivity.
Defined.

(** ** Payment *)

(** X14. The payment provider is contacted only when the visitor chose
    [stripe] and a secret key is configured.  Otherwise, that is with any
    other payment method, none, or an empty [STRIPE_SECRET], a checkout
    submission makes no payment-session request at all, and if it
    inserts an order it answers with the redirect to the success page
    that carries the id of that order. *)
Theorem X14_no_payment_request_unless_configured cfg svc data w :
  form_get data "pay_method" <> Some "stripe"%string
  \/ STRIPE_SECRET cfg = EmptyString ->
  let r := checkout cfg svc true data w in
  exists tr,
    trace (snd r) = trace w ++ tr
    /\ filter is_stripe_event tr = []
    /\ forall row,
         orders (snd r) = orders w ++ [row] ->
         fst r = Ok (Redirect ("/success?order_id=" +++ str (r_id row)) 302).
Proof.
  intros Hno. cbn zeta.
  assert (Hw : wants_stripe cfg data = false).
  { unfold wants_stripe. destruct Hno as [Hpm | ->].
    - unfold is_stripe. destruct (form_get data "pay_method") as [s|]; [|reflexivity].
      destruct (String.eqb_spec s "stripe") as [->|]; [congruence | reflexivity].
    - apply andb_false_r. }
  destruct (checkout_post_cases cfg svc data w)
    as [(Ho & _ & _ & Ht) | (c & items & total & rest & Hc & Hne & Hl & Hv & He
                             & Hfit & Ho & _ & _ & _)].
  - exists []. rewrite app_nil_r. split; [exact Ht|]. split; [reflexivity|].
    intros row Hrow. rewrite Ho in Hrow. symmetry in Hrow.
    destruct (app_one_neq _ _ Hrow).
  - clear rest.
    destruct (notified_world_trace cfg svc w data items total) as (rest & Ht & _ & Hns).
    pose proof (checkout_persisted cfg svc data w c items total Hc Hne Hl Hv He Hfit)
      as Hrun.
    cbn zeta in Hrun. rewrite Hw in Hrun.
    exists (EvInsert (new_row w data items total) :: EvCartPopped :: rest).
    rewrite Hrun. cbn [fst snd]. split; [exact Ht|]. split.
    + cbn. clear Ht. induction rest as [|ev rest IH]; [reflexivity|].
      cbn in Hns. apply andb_true_iff in Hns. destruct Hns as [Hev Hns].
      cbn. destruct (is_stripe_event ev); [discriminate | apply IH, Hns].
    + intros row Hrow. rewrite notified_world_orders in Hrow.
      apply app_inv_head in Hrow. injection Hrow as <-. reflexivity.
Qed.

Lemma X14_witness :
  let w := with_cart [("1", 2); ("2", 1)]%string in
  let r := checkout cash_cfg declined_svc true stripe_form w in
  exists tr,
    trace (snd r) = trace w ++ tr
    /\ filter is_stripe_event tr = []
    /\ forall row,
         orders (snd r) = orders w ++ [row] ->
         fst r = Ok (Redirect ("/success?order_id=" +++ str (r_id row)) 302).
Proof.
  apply (X14_no_payment_request_unless_configured cash_cfg declined_svc stripe_form
           (with_cart [("1", 2); ("2", 1)]%string)).
  right. reflexivity.
Defined.

(** X15. When the provider grants the payment session, the visitor is
    redirected to the URL the provider returned, with status 303; by then
    the order is in the table, unpaid, with the total as the [REAL]
    column holds it, the cart is gone, and nothing was flashed. *)
Theorem X15_payment_session_redirect cfg svc data w c items total url :
  session_cart w = Some c -> c <> [] ->
  checkout_loop cfg c [] 0 = Ok (items, total) ->
  valid_form data = true ->
  sqlite_error svc = None ->
  fits_int64 total = true ->
  wants_stripe cfg data = true ->
  stripe_create svc (stripe_request_of cfg items (orders_seq w + 1))
  = StripeSession url ->
  let r := checkout cfg svc true data w in
  fst r = Ok (Redirect url 303)
  /\ (exists row,
        orders (snd r) = orders w ++ [row]
        /\ r_id row = orders_seq w + 1 /\ r_paid row = 0
        /\ r_total row = real_of_int total
        /\ (Z.abs total <= 2 ^ 53 -> r_total row = total))
  /\ session_cart (snd r) = None
  /\ session_flashes (snd r) = session_flashes w.
Proof.
  intros Hc Hne Hl Hv He Hfit Hs Hok. cbn zeta.
  rewrite (checkout_persisted _ _ _ _ _ _ _ Hc Hne Hl Hv He Hfit). cbn zeta.
  rewrite Hs, Hok. cbn [fst snd].
  split; [reflexivity|]. split; [|split].
  - exists (new_row w data items total). cbn [orders log].
    rewrite notified_world_orders.
    split; [reflexivity|]. split; [reflexivity|]. split; [reflexivity|].
    split; [reflexivity|]. intros Hsmall. apply real_of_int_exact, Hsmall.
  - cbn. apply notified_world_cart.
  - cbn. apply notified_world_flashes.
Qed.

Lemma X15_witness :
  let w := with_cart [("1", 2); ("2", 1)]%string in
  let r := checkout demo_cfg demo_svc true stripe_form w in
  fst r = Ok (Redirect "https://pay.example/cs_test_a1" 303)
  /\ (exists row,
        orders (snd r) = orders w ++ [row]
        /\ r_id row = orders_seq w + 1 /\ r_paid row = 0
        /\ r_total row = real_of_int 45
        /\ (Z.abs 45 <= 2 ^ 53 -> r_total row = 45))
  /\ session_cart (snd r) = None
  /\ session_flashes (snd r) = session_flashes w.
Proof.
  apply (X15_payment_session_redirect demo_cfg demo_svc stripe_form
           (with_cart [("1", 2); ("2", 1)]%string) [("1", 2); ("2", 1)]%string
           two_items 45 "https://pay.example/cs_test_a1"); try reflexivity.
  discriminate.
Defined.

(** ** The review page and the stored order *)




(** ** The empty cart *)

(** X17. The checkout answers with the redirect to the index page
    exactly when the cart is empty or absent, on GET and on POST alike,
    and then it does nothing but flash [Your cart is empty]: no order, no
    change of the session cart, no external effect, whatever the form
    holds. *)
Theorem X17_empty_cart_guard cfg svc post data w :
  (fst (checkout cfg svc post data w) = Ok (Redirect "/" 302) <-> cart_of w = [])
  /\ (cart_of w = [] ->
      snd (checkout cfg svc post data w)
      = add_flash ("Your cart is empty", "error")%string w).
Proof.
  unfold cart_of. destruct (session_cart w) as [[|x c']|] eqn:Hc.
  - rewrite checkout_no_cart by auto. split; [split; reflexivity | reflexivity].
  - assert (Hne : x :: c' <> []) by discriminate.
    split; [|discriminate]. split; [|discriminate]. intros H. exfalso. revert H.
    destruct (checkout_loop cfg (x :: c') [] 0) as [[items total]|e] eqn:Hl.
    + destruct post.
      * destruct (valid_form data) eqn:Hv.
        -- destruct (sqlite_error svc) as [msg|] eqn:He.
           ++ rewrite (checkout_db_error _ _ _ _ _ _ _ _ Hc Hne Hl Hv He). discriminate.
           ++ destruct (fits_int64 total) eqn:Hfit;
                [|rewrite (checkout_overflow _ _ _ _ _ _ _ Hc Hne Hl Hv He Hfit);
                  discriminate].
              rewrite (checkout_persisted _ _ _ _ _ _ _ Hc Hne Hl Hv He Hfit). cbn zeta.
              destruct (wants_stripe cfg data); [destruct (stripe_create svc _)|];
                discriminate.
        -- rewrite (checkout_invalid _ _ _ _ _ _ _ Hc Hne Hl Hv). discriminate.
      * rewrite (checkout_get _ _ _ _ _ _ _ Hc Hne Hl). discriminate.
    + rewrite (checkout_raises _ _ _ _ _ _ _ Hc Hne Hl). discriminate.
  - rewrite checkout_no_cart by auto. split; [split; reflexivity | reflexivity].
Qed.

Lemma X17_witness :
  snd (checkout demo_cfg demo_svc true demo_form
         (snd (update_cart [("qty-1", "0")]%string (with_cart [("1", 2)]%string))))
  = add_flash ("Your cart is empty", "error")%string
      (snd (update_cart [("qty-1", "0")]%string (with_cart [("1", 2)]%string))).
Proof.
  destruct (X17_empty_cart_guard demo_cfg demo_svc true demo_form
              (snd (update_cart [("qty-1", "0")]%string (with_cart [("1", 2)]%string))))
    as [_ H].
  apply H. reflexivity.
Defined.

(** ** After a persisted order *)

(** X18. An order cannot be duplicated by submitting again.  Once a
    checkout has persisted an order, the session has no cart, so the next
    checkout request of that session, GET or POST, with any form, any
    catalog and any behaviour of the services (also the one the visitor
    is sent to after a failed payment), answers [Your cart is empty] with
    the redirect to the index page and inserts nothing. *)
Theorem X18_resubmission_creates_no_order cfg svc data w cfg' svc' post' data' :
  let w1 := snd (checkout cfg svc true data w) in
  order_inserted w w1 ->
  let r := checkout cfg' svc' post' data' w1 in
  fst r = Ok (Redirect "/" 302)
  /\ orders (snd r) = orders w1
  /\ List.length (orders w1) = S (List.length (orders w))
  /\ trace (snd r) = trace w1
  /\ session_flashes (snd r)
     = session_flashes w1 ++ [("Your cart is empty", "error")]%string.
Proof.
  cbn zeta. intros [row Hrow].
  assert (Hcart : session_cart (snd (checkout cfg svc true data w)) = None).
  { destruct (checkout_post_cases cfg svc data w)
      as [(Ho & _) | (c & items & total & rest & _ & _ & _ & _ & _
                      & _ & _ & _ & Hc & _)]; [|exact Hc].
    rewrite Ho in Hrow. symmetry in Hrow. destruct (app_one_neq _ _ Hrow). }
  set (w1 := snd (checkout cfg svc true data w)) in *.
  rewrite checkout_no_cart by (left; exact Hcart).
  cbn [fst snd orders trace session_flashes add_flash].
  rewrite Hrow, List.length_app. cbn [List.length]. rewrite Nat.add_1_r. auto.
Qed.

Lemma X18_witness :
  let w1 := snd (checkout demo_cfg declined_svc true stripe_form
                   (with_cart [("1", 2); ("2", 1)]%string)) in
  let r := checkout pricier_cfg demo_svc true stripe_form w1 in
  fst r = Ok (Redirect "/" 302)
  /\ orders (snd r) = orders w1
  /\ List.length (orders w1)
     = S (List.length (orders (with_cart [("1", 2); ("2", 1)]%string)))
  /\ trace (snd r) = trace w1
  /\ session_flashes (snd r)
     = session_flashes w1 ++ [("Your cart is empty", "error")]%string.
Proof.
  apply (X18_resubmission_creates_no_order demo_cfg declined_svc stripe_form
           (with_cart [("1", 2); ("2", 1)]%string) pricier_cfg demo_svc true
           stripe_form).
  eexists. reflexivity.
Defined.
